(** * Facility location optimizer: data store, clustering call, service radii

    A shallow embedding of the Python application
    (src/data_manager.py, src/optimizer.py, src/plotter.py, src/gui.py).

    - Coordinates are Python floats; they are idealised as exact rationals
      ([Q]), so that every definition below can be evaluated.  Euclidean
      distances, which need a square root, live in [R].
    - A Python call that may raise is a function into [result].
    - The mutable [DataManager] object is a record threaded through its
      methods. *)

From Stdlib Require Import String Ascii DecimalString.
From Stdlib Require Import List Arith Bool ZArith QArith Qreals Reals Lia Lra Psatz.
Import ListNotations.

(** ** Exceptions *)

Inductive exn : Type :=
| ValueError (msg : string)
| IndexError (msg : string).

Inductive result (A : Type) : Type :=
| Ok (a : A)
| Raise (e : exn).

Arguments Ok {A} a.
Arguments Raise {A} e.

(** ** Points *)

Definition point : Type := (Q * Q)%type.

Definition px (p : point) : Q := fst p.
Definition py (p : point) : Q := snd p.

(** Squared Euclidean distance (exact) and Euclidean distance (real). *)
Definition dist2 (p c : point) : Q :=
  (px p - px c) * (px p - px c) + (py p - py c) * (py p - py c).

Definition dist (p c : point) : R := sqrt (Q2R (dist2 p c)).

Definition sumQ (l : list Q) : Q := fold_right Qplus 0 l.

(** Arithmetic mean of a sequence of points, coordinate by coordinate. *)
Definition mean (pts : list point) : point :=
  let n := inject_Z (Z.of_nat (length pts)) in
  (sumQ (map px pts) / n, sumQ (map py pts) / n).

(** ** data_manager.py *)

Module DataManager.

Record t : Type := mk {
  customer_data : list point;
  initial_facility_locations : list point;
  optimal_facility_locations : option (list point);
  cluster_labels : option (list nat)
}.

Definition __init__ : t :=
  {| customer_data := [];
     initial_facility_locations := [];
     optimal_facility_locations := None;
     cluster_labels := None |}.

Definition add_customer (x y : Q) (self : t) : t :=
  {| customer_data := customer_data self ++ [(x, y)];
     initial_facility_locations := initial_facility_locations self;
     optimal_facility_locations := optimal_facility_locations self;
     cluster_labels := cluster_labels self |}.

Definition add_initial_facility (x y : Q) (self : t) : t :=
  {| customer_data := customer_data self;
     initial_facility_locations := initial_facility_locations self ++ [(x, y)];
     optimal_facility_locations := optimal_facility_locations self;
     cluster_labels := cluster_labels self |}.

Definition clear_customers (self : t) : t :=
  {| customer_data := [];
     initial_facility_locations := initial_facility_locations self;
     optimal_facility_locations := optimal_facility_locations self;
     cluster_labels := cluster_labels self |}.

Definition clear_facilities (self : t) : t :=
  {| customer_data := customer_data self;
     initial_facility_locations := [];
     optimal_facility_locations := None;
     cluster_labels := None |}.

Definition set_optimal_facilities (locations : list point) (labels : list nat)
    (self : t) : t :=
  {| customer_data := customer_data self;
     initial_facility_locations := initial_facility_locations self;
     optimal_facility_locations := Some locations;
     cluster_labels := Some labels |}.

(** What the file dialog and the spreadsheet reader hand back to an import:
    no file chosen, a reader failure, a sheet without an X or Y column, or
    the rows of the X and Y columns zipped. *)
Inductive excel : Type :=
| NoFile
| ReadFailure (msg : string)
| MissingColumns
| Rows (rows : list point).

Definition import_customers_excel (file : excel) (self : t) : t * bool :=
  match file with
  | Rows new_customers =>
      ({| customer_data := customer_data self ++ new_customers;
          initial_facility_locations := initial_facility_locations self;
          optimal_facility_locations := optimal_facility_locations self;
          cluster_labels := cluster_labels self |}, true)
  | _ => (self, false)
  end.

Definition import_facilities_excel (file : excel) (self : t) : t * bool :=
  match file with
  | Rows new_facilities =>
      ({| customer_data := customer_data self;
          initial_facility_locations :=
            initial_facility_locations self ++ new_facilities;
          optimal_facility_locations := optimal_facility_locations self;
          cluster_labels := cluster_labels self |}, true)
  | _ => (self, false)
  end.

(** The methods as a labelled transition system on the store. *)
Inductive op : Type :=
| AddCustomer (x y : Q)
| AddInitialFacility (x y : Q)
| ClearCustomers
| ClearFacilities
| SetOptimalFacilities (locations : list point) (labels : list nat)
| ImportCustomersExcel (file : excel)
| ImportFacilitiesExcel (file : excel).

Definition step (o : op) (self : t) : t :=
  match o with
  | AddCustomer x y => add_customer x y self
  | AddInitialFacility x y => add_initial_facility x y self
  | ClearCustomers => clear_customers self
  | ClearFacilities => clear_facilities self
  | SetOptimalFacilities locations labels =>
      set_optimal_facilities locations labels self
  | ImportCustomersExcel file => fst (import_customers_excel file self)
  | ImportFacilitiesExcel file => fst (import_facilities_excel file self)
  end.

Definition run (ops : list op) (self : t) : t :=
  fold_left (fun s o => step o s) ops self.

(** The two result fields are absent together or present together. *)
Definition paired (self : t) : Prop :=
  (optimal_facility_locations self = None /\ cluster_labels self = None) \/
  (optimal_facility_locations self <> None /\ cluster_labels self <> None).

(** The stored result has one label per stored customer and one location
    per stored initial facility: the least that a result computed from the
    stored sequences satisfies. *)
Definition aligned (self : t) : Prop :=
  match optimal_facility_locations self, cluster_labels self with
  | Some locations, Some labels =>
      length labels = length (customer_data self) /\
      length locations = length (initial_facility_locations self)
  | None, None => True
  | _, _ => False
  end.

(** The operations that assign [customer_data]; every other operation leaves
    it alone, and these assign nothing else. *)
Definition on_customers (o : op) : bool :=
  match o with
  | AddCustomer _ _ | ClearCustomers | ImportCustomersExcel _ => true
  | _ => false
  end.

End DataManager.

(** The customers whose label is [i], in customer order: the rows that
    [np.array(customer_data)[cluster_labels == i]] selects when there is one
    label per customer. *)
Definition cluster_points (customers : list point) (labels : list nat) (i : nat)
    : list point :=
  map fst (filter (fun pl => snd pl =? i) (combine customers labels)).

(** ** The clustering library

    [sklearn.cluster.KMeans] is a third-party class: the repository only
    constructs it and calls [fit].  Its interface is the part of it that
    optimizer.py uses. *)

Module KMeans.

(** The constructor arguments that optimizer.py passes. *)
Record params : Type := {
  n_clusters : nat;
  init : list point;
  n_init : nat;
  random_state : Z
}.

(** The attributes that optimizer.py reads back after [fit]. *)
Record fitted : Type := {
  cluster_centers_ : list point;
  labels_ : list nat
}.

(** [fit]: from the constructor arguments and the data to the fitted
    attributes, or an exception. *)
Definition estimator : Type := params -> list point -> result fitted.

(** Modelled from the spec: the assignment step of scikit-learn is not under
    src/.  Index of the centroid nearest to [p].  A later centroid replaces the
    current best only when it is strictly nearer, so that among equally
    near centroids the lowest index wins.  Squared distances are compared,
    which orders centroids exactly as distances do. *)
Fixpoint argmin_from (p : point) (best : nat) (best_d : Q) (i : nat)
    (centroids : list point) : nat :=
  match centroids with
  | [] => best
  | c :: rest =>
      if Qle_bool best_d (dist2 p c)
      then argmin_from p best best_d (S i) rest
      else argmin_from p i (dist2 p c) (S i) rest
  end.

(** Modelled from the spec: the nearest centroid, lowest index first. *)
Definition nearest (centroids : list point) (p : point) : nat :=
  match centroids with
  | [] => 0
  | c :: rest => argmin_from p 0 (dist2 p c) 1 rest
  end.

(** Modelled from the spec: step a.  Every customer gets the index of its
    nearest centroid. *)
Definition assign (centroids customers : list point) : list nat :=
  map (nearest centroids) customers.

(** Modelled from the spec: step b, for one centroid.  The mean of its
    customers, or its previous position when it has none.  This follows the
    words of section 4.1; scikit-learn itself moves a centroid that has no
    customers onto a customer, so only runs in which every centroid keeps a
    customer are described by this step. *)
Definition recompute (customers : list point) (labels : list nat)
    (i : nat) (previous : point) : point :=
  match cluster_points customers labels i with
  | [] => previous
  | (_ :: _) as members => mean members
  end.

(** Modelled from the spec: step b, for the centroids from index [i] on. *)
Fixpoint recompute_from (customers : list point) (labels : list nat)
    (i : nat) (centroids : list point) : list point :=
  match centroids with
  | [] => []
  | c :: rest =>
      recompute customers labels i c
        :: recompute_from customers labels (S i) rest
  end.

(** Modelled from the spec: step b, for all centroids. *)
Definition update (customers : list point) (labels : list nat)
    (centroids : list point) : list point :=
  recompute_from customers labels 0 centroids.

Section Lloyd.

(** The stopping rule is the library's: a test on the centroids before
    and after an iteration (their movement is below a small threshold)
    and a cap on the number of iterations. *)
Variable converged : list point -> list point -> bool.
Variable max_iter : nat.

(** Modelled from the spec: the loop of section 4.1.  One pass of steps a
    and b, then stop or repeat.  [more] is the number of further iterations
    that the cap still allows. *)
Fixpoint lloyd (more : nat) (customers centroids : list point)
    : list point * list nat :=
  let labels := assign centroids customers in
  let centroids' := update customers labels centroids in
  match more with
  | O => (centroids', labels)
  | S more' =>
      if converged centroids centroids'
      then (centroids', labels)
      else lloyd more' customers centroids'
  end.

(** Modelled from the spec: [KMeans.fit] of scikit-learn is not under
    src/.  Section 4.1: it fails on an empty customer set, on an empty
    initial facility set and when k exceeds the number of customers;
    otherwise the centroids start at exactly the given initial
    positions and steps a and b are repeated until convergence or the
    iteration cap, as one run ([n_init] and [random_state] select
    nothing: there is no random restart and no random initialisation). *)
Definition fit : estimator := fun self X =>
  match X, init self with
  | [], _ => Raise (ValueError "empty customer set")
  | _ :: _, [] => Raise (ValueError "empty initial facility set")
  | _ :: _, _ :: _ =>
      if length X <? n_clusters self
      then Raise (ValueError "more clusters than customers")
      else
        let (centers, labels) := lloyd (Nat.pred max_iter) X (init self) in
        Ok {| cluster_centers_ := centers; labels_ := labels |}
  end.

End Lloyd.

(** Modelled from the spec: a concrete stopping test.  The summed squared
    movement of the centroids is at most [tol]. *)
Fixpoint movement (before after : list point) : Q :=
  match before, after with
  | b :: before', a :: after' => dist2 b a + movement before' after'
  | _, _ => 0
  end.

Definition movement_below (tol : Q) (before after : list point) : bool :=
  Qle_bool (movement before after) tol.

End KMeans.

(** ** optimizer.py *)

Module Optimizer.

Section RunKMeans.

(** The [fit] of the installed clustering library. *)
Variable fit : KMeans.estimator.

Definition run_kmeans (customer_data initial_facility_locations : list point)
    : result (list point * list nat) :=
  let customer_np_data := customer_data in
  let initial_locations := initial_facility_locations in
  let k := length initial_locations in
  let kmeans :=
    {| KMeans.n_clusters := k;
       KMeans.init := initial_locations;
       KMeans.n_init := 1;
       KMeans.random_state := 0%Z |} in
  match fit kmeans customer_np_data with
  | Raise e => Raise e
  | Ok fitted =>
      let optimal_facility_locations := KMeans.cluster_centers_ fitted in
      let cluster_labels := KMeans.labels_ fitted in
      Ok (optimal_facility_locations, cluster_labels)
  end.

End RunKMeans.

End Optimizer.

(** The clustering call with a concrete stopping rule, for running examples:
    summed squared movement at most 1/10000, at most 300 iterations. *)
Definition run_kmeans_300 : list point -> list point -> result (list point * list nat) :=
  Optimizer.run_kmeans (KMeans.fit (KMeans.movement_below (1 # 10000)) 300).

(** ** plotter.py *)

Module Plotter.

(** [np.array(customer_data)[cluster_labels == i]]: a boolean mask must be
    as long as the array it indexes. *)
Definition mask_select (customer_data : list point) (cluster_labels : list nat)
    (i : nat) : result (list point) :=
  if length cluster_labels =? length customer_data
  then Ok (cluster_points customer_data cluster_labels i)
  else Raise (IndexError "boolean index did not match indexed array").

(** [np.max] of a non-empty array. *)
Definition np_max (d : R) (ds : list R) : R := fold_left Rmax ds d.

(** The body of the loop that fills [radii], for facility [i]. *)
Definition service_radius (customer_data : list point)
    (cluster_labels : list nat) (i : nat) (facility : point) : result R :=
  match mask_select customer_data cluster_labels i with
  | Raise e => Raise e
  | Ok cluster_points =>
      match map (fun p => dist p facility) cluster_points with
      | [] => Ok 0%R
      | d :: ds => Ok (np_max d ds)
      end
  end.

Fixpoint radii_from (customer_data : list point) (cluster_labels : list nat)
    (i : nat) (optimal_locations : list point) : result (list R) :=
  match optimal_locations with
  | [] => Ok []
  | facility :: rest =>
      match service_radius customer_data cluster_labels i facility with
      | Raise e => Raise e
      | Ok r =>
          match radii_from customer_data cluster_labels (S i) rest with
          | Raise e => Raise e
          | Ok rs => Ok (r :: rs)
          end
      end
  end.

(** The [radii] list of [_plot_optimal_facilities]. *)
Definition _plot_optimal_facilities (customer_data : list point)
    (optimal_locations : list point) (cluster_labels : list nat)
    : result (list R) :=
  radii_from customer_data cluster_labels 0 optimal_locations.

(** [_plot_clustered_customers] reads [cluster_labels[i]] for every
    customer index [i]. *)
Definition _plot_clustered_customers (customer_data : list point)
    (cluster_labels : list nat) : result unit :=
  if length customer_data <=? length cluster_labels
  then Ok tt
  else Raise (IndexError "index out of bounds").

Section Axes.

(** [set_xlim] and [set_ylim] of matplotlib, called with the limits that
    [_adjust_plot_limits] computes in binary64 (minimum, maximum, a tenth of
    the span or 1, the largest radius) from its three arrays and, for the
    radii, from the customers and labels of the data manager.  Neither that
    arithmetic nor matplotlib is under src/, so the outcome of the two calls
    is taken as given: matplotlib raises [ValueError] for a limit that is
    not finite, which happens for finite coordinates whose span overflows. *)
Variable set_limits :
  DataManager.t -> list point -> list point -> option (list point) ->
  result unit.

(** [_adjust_plot_limits]: the arguments are the arrays that [update_plot]
    made; the labels and the customers for the radii are read from the data
    manager.  The radii are computed again by the same loop, which raises
    as in [_plot_optimal_facilities]; the limits are set when any coordinate
    was collected. *)
Definition _adjust_plot_limits (self : DataManager.t)
    (customer_data initial_data : list point)
    (optimal_data : option (list point)) : result unit :=
  let set_if_any (collected : list point) : result unit :=
    match collected with
    | [] => Ok tt
    | _ :: _ => set_limits self customer_data initial_data optimal_data
    end in
  match optimal_data with
  | None => set_if_any (customer_data ++ initial_data)%list
  | Some optimal =>
      match DataManager.cluster_labels self with
      | None => set_if_any (customer_data ++ initial_data ++ optimal)%list
      | Some labels =>
          match radii_from (DataManager.customer_data self) labels 0 optimal with
          | Raise e => Raise e
          | Ok _ => set_if_any (customer_data ++ initial_data ++ optimal)%list
          end
      end
  end.

(** [update_plot], as far as its outcome depends on the data: the customers
    are coloured and the facilities and their circles drawn when a result is
    stored, the initial facilities are scattered, and the limits are
    adjusted.  The value is the list of radii of the circles drawn. *)
Definition update_plot (dm : DataManager.t) : result (list R) :=
  match DataManager.customer_data dm with
  | [] => Ok []
  | (_ :: _) as customers =>
      let drawn :=
        match DataManager.cluster_labels dm,
              DataManager.optimal_facility_locations dm with
        | Some labels, Some locations =>
            match _plot_clustered_customers customers labels with
            | Raise e => Raise e
            | Ok _ => _plot_optimal_facilities customers locations labels
            end
        | _, _ => Ok []
        end in
      match drawn with
      | Raise e => Raise e
      | Ok radii =>
          match _adjust_plot_limits dm customers
                  (DataManager.initial_facility_locations dm)
                  (DataManager.optimal_facility_locations dm) with
          | Raise e => Raise e
          | Ok _ => Ok radii
          end
      end
  end.

End Axes.

(** The legend entries kept by [update_plot]: the pair at index [i] of
    [zip(handles, labels)] stays when its label does not occur in
    [labels[:i]]. *)
Fixpoint unique_from {H : Type} (labels : list string) (i : nat)
    (pairs : list (H * string)) : list (H * string) :=
  match pairs with
  | [] => []
  | (h, l) :: rest =>
      if existsb (String.eqb l) (firstn i labels)
      then unique_from labels (S i) rest
      else (h, l) :: unique_from labels (S i) rest
  end.

Definition unique {H : Type} (handles : list H) (labels : list string)
    : list (H * string) :=
  unique_from labels 0 (combine handles labels).

End Plotter.

(** ** gui.py *)

Module KMeansApp.

Inductive messagebox : Type :=
| showwarning (title message : string)
| showerror (title message : string)
| showinfo (title message : string).

Definition str (e : exn) : string :=
  match e with ValueError msg => msg | IndexError msg => msg end.

Section App.

Variable set_limits :
  DataManager.t -> list point -> list point -> option (list point) ->
  result unit.

Variable fit : KMeans.estimator.

(** [_update_display] rewrites the three text lists, which cannot fail,
    and redraws the plot. *)
Definition _update_display (dm : DataManager.t) : result unit :=
  match Plotter.update_plot set_limits dm with
  | Raise e => Raise e
  | Ok _ => Ok tt
  end.

Definition calculation_error (e : exn) : messagebox :=
  showerror "Error"
    (String.append "An error occurred during calculation: " (str e)).

(** The calculate action: the store afterwards and the message boxes
    shown. *)
Definition _run_calculation (dm : DataManager.t)
    : DataManager.t * list messagebox :=
  match DataManager.customer_data dm with
  | [] =>
      (dm, [showwarning "No Customers"
              "Please add customer locations first."])
  | _ :: _ =>
      match DataManager.initial_facility_locations dm with
      | [] =>
          (dm, [showwarning "No Facilities"
                  "Please add initial facility locations first."])
      | _ :: _ =>
          match Optimizer.run_kmeans fit
                  (DataManager.customer_data dm)
                  (DataManager.initial_facility_locations dm) with
          | Raise e => (dm, [calculation_error e])
          | Ok (optimal_locations, cluster_labels) =>
              let dm' :=
                DataManager.set_optimal_facilities
                  optimal_locations cluster_labels dm in
              match _update_display dm' with
              | Raise e => (dm', [calculation_error e])
              | Ok _ =>
                  (dm', [showinfo "Calculation Complete"
                           "Optimal facility locations calculated!"])
              end
          end
      end
  end.

End App.

(** The window: the data manager and the four entry fields. *)
Record app : Type := {
  data_manager : DataManager.t;
  customer_x_entry : string;
  customer_y_entry : string;
  facility_x_entry : string;
  facility_y_entry : string
}.

(** What a button press leaves behind: the window, the message boxes shown,
    and the exception that left the callback, if any. *)
Record pressed : Type := {
  window_after : app;
  boxes : list messagebox;
  uncaught : option exn
}.

Definition invalid_input : messagebox :=
  showerror "Invalid Input"
    "Please enter valid numbers for X and Y coordinates.".

Definition cleared_customers : messagebox :=
  showinfo "Cleared" "All customer locations cleared.".

Definition cleared_facilities : messagebox :=
  showinfo "Cleared" "All facility locations cleared.".

Definition with_data_manager (self : app) (dm : DataManager.t) : app :=
  {| data_manager := dm;
     customer_x_entry := customer_x_entry self;
     customer_y_entry := customer_y_entry self;
     facility_x_entry := facility_x_entry self;
     facility_y_entry := facility_y_entry self |}.

(** The box that the data manager shows during an import, of [what]
    ("customer" or "facility"): none when no file is chosen, an error box
    for a reader failure or a missing column, and the count of the rows
    added otherwise. *)
Definition import_boxes (what : string) (file : DataManager.excel)
    : list messagebox :=
  match file with
  | DataManager.NoFile => []
  | DataManager.ReadFailure msg =>
      [showerror "Error"
         (String.append "Failed to import Excel file:"
            (String "010"%char msg))]
  | DataManager.MissingColumns =>
      [showerror "Error" "Excel file must contain 'X' and 'Y' columns"]
  | DataManager.Rows rows =>
      [showinfo "Success"
         (String.append "Added "
            (String.append (NilZero.string_of_uint (Nat.to_uint (length rows)))
               (String.append " "
                  (String.append what " locations from Excel"))))]
  end.

Section Handlers.

Variable set_limits :
  DataManager.t -> list point -> list point -> option (list point) ->
  result unit.

(** The builtin [float] on an entry text; [None] is its [ValueError].
    Texts that convert to a non-finite float are not represented. *)
Variable float : string -> option Q.

(** The tail of [_add_customer] and [_add_facility] after the store was
    changed and the entries were emptied: the redraw, inside the [try], whose
    handler catches [ValueError] only. *)
Definition redraw_in_try (self : app) : pressed :=
  match _update_display set_limits (data_manager self) with
  | Ok _ => {| window_after := self; boxes := []; uncaught := None |}
  | Raise (ValueError _) =>
      {| window_after := self; boxes := [invalid_input]; uncaught := None |}
  | Raise e => {| window_after := self; boxes := []; uncaught := Some e |}
  end.

Definition _add_customer (self : app) : pressed :=
  match float (customer_x_entry self) with
  | None => {| window_after := self; boxes := [invalid_input]; uncaught := None |}
  | Some x =>
      match float (customer_y_entry self) with
      | None =>
          {| window_after := self; boxes := [invalid_input]; uncaught := None |}
      | Some y =>
          redraw_in_try
            {| data_manager := DataManager.add_customer x y (data_manager self);
               customer_x_entry := "";
               customer_y_entry := "";
               facility_x_entry := facility_x_entry self;
               facility_y_entry := facility_y_entry self |}
      end
  end.

Definition _add_facility (self : app) : pressed :=
  match float (facility_x_entry self) with
  | None => {| window_after := self; boxes := [invalid_input]; uncaught := None |}
  | Some x =>
      match float (facility_y_entry self) with
      | None =>
          {| window_after := self; boxes := [invalid_input]; uncaught := None |}
      | Some y =>
          redraw_in_try
            {| data_manager :=
                 DataManager.add_initial_facility x y (data_manager self);
               customer_x_entry := customer_x_entry self;
               customer_y_entry := customer_y_entry self;
               facility_x_entry := "";
               facility_y_entry := "" |}
      end
  end.

(** A redraw outside any [try], after the boxes [shown]: its exception
    leaves the callback. *)
Definition redraw (self : app) (shown : list messagebox) : pressed :=
  match _update_display set_limits (data_manager self) with
  | Ok _ => {| window_after := self; boxes := shown; uncaught := None |}
  | Raise e => {| window_after := self; boxes := shown; uncaught := Some e |}
  end.

Definition _clear_customers (self : app) : pressed :=
  redraw (with_data_manager self
            (DataManager.clear_customers (data_manager self)))
    [cleared_customers].

Definition _clear_facilities (self : app) : pressed :=
  redraw (with_data_manager self
            (DataManager.clear_facilities (data_manager self)))
    [cleared_facilities].

Definition _import_customers_excel (file : DataManager.excel) (self : app)
    : pressed :=
  let (dm, imported) :=
    DataManager.import_customers_excel file (data_manager self) in
  if imported
  then redraw (with_data_manager self dm) (import_boxes "customer" file)
  else {| window_after := with_data_manager self dm;
          boxes := import_boxes "customer" file;
          uncaught := None |}.

Definition _import_facilities_excel (file : DataManager.excel) (self : app)
    : pressed :=
  let (dm, imported) :=
    DataManager.import_facilities_excel file (data_manager self) in
  if imported
  then redraw (with_data_manager self dm) (import_boxes "facility" file)
  else {| window_after := with_data_manager self dm;
          boxes := import_boxes "facility" file;
          uncaught := None |}.

End Handlers.

End KMeansApp.

(** * Vocabulary of the properties *)

(** What the radius loop is to compute for facility [i]. *)
Definition is_radius (customers : list point) (labels : list nat)
    (i : nat) (facility : point) (r : R) : Prop :=
  (forall j p,
     nth_error customers j = Some p -> nth_error labels j = Some i ->
     (dist p facility <= r)%R) /\
  ((exists j p,
      nth_error customers j = Some p /\ nth_error labels j = Some i /\
      dist p facility = r) \/
   (~ In i labels /\ r = 0%R)).

(** A store that the steps before the limits can draw: it holds no result,
    or a result with one label per customer. *)
Definition drawable (dm : DataManager.t) : Prop :=
  DataManager.cluster_labels dm = None \/
  DataManager.optimal_facility_locations dm = None \/
  exists labels locations,
    DataManager.cluster_labels dm = Some labels /\
    DataManager.optimal_facility_locations dm = Some locations /\
    length labels = length (DataManager.customer_data dm).

(** * Properties *)

(** ** The data store *)

Section DataManagerFacts.

Import DataManager.

Lemma step_result_fields (o : op) (self : t) :
  match o with
  | SetOptimalFacilities locations labels =>
      optimal_facility_locations (step o self) = Some locations /\
      cluster_labels (step o self) = Some labels
  | ClearFacilities =>
      optimal_facility_locations (step o self) = None /\
      cluster_labels (step o self) = None
  | _ =>
      optimal_facility_locations (step o self) = optimal_facility_locations self /\
      cluster_labels (step o self) = cluster_labels self
  end.
Proof.
  destruct o as [x y|x y| | |locations labels|file|file]; cbn;
    try destruct file; cbn; auto.
Qed.

Lemma step_paired (o : op) (self : t) : paired self -> paired (step o self).
Proof.
  intros Hp. pose proof (step_result_fields o self) as Hf. unfold paired in *.
  destruct o; destruct Hf as [-> ->]; auto; right; split; discriminate.
Qed.

Lemma run_paired (ops : list op) :
  forall self, paired self -> paired (run ops self).
Proof.
  unfold run. induction ops as [|o ops IH]; intros self Hp; cbn.
  - exact Hp.
  - apply IH, step_paired, Hp.
Qed.

(** C9.  [add_customer x y] appends exactly the point [(x, y)] to the end
    of the customer sequence and leaves the initial facility sequence and
    both result fields as they were; [add_initial_facility x y] appends
    exactly [(x, y)] to the end of the initial facility sequence and leaves
    the customer sequence and both result fields as they were.  In
    particular a result stored by [set_optimal_facilities] is still stored
    after either addition. *)
Theorem add_appends_and_frames (x y : Q) (self : t) :
  (customer_data (add_customer x y self) = customer_data self ++ [(x, y)] /\
   initial_facility_locations (add_customer x y self)
     = initial_facility_locations self /\
   optimal_facility_locations (add_customer x y self)
     = optimal_facility_locations self /\
   cluster_labels (add_customer x y self) = cluster_labels self) /\
  (initial_facility_locations (add_initial_facility x y self)
     = initial_facility_locations self ++ [(x, y)] /\
   customer_data (add_initial_facility x y self) = customer_data self /\
   optimal_facility_locations (add_initial_facility x y self)
     = optimal_facility_locations self /\
   cluster_labels (add_initial_facility x y self) = cluster_labels self) /\
  (forall locations labels,
     let stored := set_optimal_facilities locations labels self in
     optimal_facility_locations (add_customer x y stored) = Some locations /\
     cluster_labels (add_customer x y stored) = Some labels /\
     optimal_facility_locations (add_initial_facility x y stored)
       = Some locations /\
     cluster_labels (add_initial_facility x y stored) = Some labels).
Proof.
  repeat split.
Qed.

(** C10.  The two result fields are both absent or both present in every
    state of the store: they start both absent, every operation keeps them
    paired, [set_optimal_facilities] sets both, [clear_facilities] resets
    both, and every other operation leaves both fields as they were. *)
Theorem result_fields_paired :
  (optimal_facility_locations __init__ = None /\
   cluster_labels __init__ = None) /\
  (forall o self, paired self -> paired (step o self)) /\
  (forall ops, paired (run ops __init__)) /\
  (forall o self,
     match o with
     | SetOptimalFacilities locations labels =>
         optimal_facility_locations (step o self) = Some locations /\
         cluster_labels (step o self) = Some labels
     | ClearFacilities =>
         optimal_facility_locations (step o self) = None /\
         cluster_labels (step o self) = None
     | _ =>
         optimal_facility_locations (step o self)
           = optimal_facility_locations self /\
         cluster_labels (step o self) = cluster_labels self
     end).
Proof.
  split; [split; reflexivity|].
  split; [exact step_paired|].
  split; [|exact step_result_fields].
  intros ops. apply run_paired. left. split; reflexivity.
Qed.

Lemma result_fields_paired_witness :
  paired (step ClearCustomers
            (set_optimal_facilities [(1, 0)%Q] [0; 0]%nat __init__)).
Proof.
  apply (proj1 (proj2 result_fields_paired)).
  right. split; discriminate.
Defined.

End DataManagerFacts.

(** ** Cluster membership *)

Lemma cluster_points_cons (p : point) (l i : nat) customers labels :
  cluster_points (p :: customers) (l :: labels) i =
  if l =? i then p :: cluster_points customers labels i
  else cluster_points customers labels i.
Proof.
  unfold cluster_points. cbn. destruct (l =? i); reflexivity.
Qed.

Lemma in_cluster_points (i : nat) (p : point) :
  forall customers labels,
    In p (cluster_points customers labels i) <->
    exists j, nth_error customers j = Some p /\ nth_error labels j = Some i.
Proof.
  induction customers as [|q customers IH]; intros labels.
  - cbn. split; [tauto|]. intros [[|j] [H _]]; discriminate.
  - destruct labels as [|l labels].
    + cbn. split; [tauto|]. intros [[|j] [_ H]]; discriminate.
    + rewrite cluster_points_cons. split.
      * intros Hin. destruct (Nat.eqb_spec l i) as [->|Hne].
        -- destruct Hin as [->|Hin].
           ++ exists 0%nat. split; reflexivity.
           ++ apply IH in Hin. destruct Hin as [j Hj]. exists (S j). exact Hj.
        -- apply IH in Hin. destruct Hin as [j Hj]. exists (S j). exact Hj.
      * intros [[|j] [Hc Hl]]; cbn in Hc, Hl.
        -- injection Hc as ->. injection Hl as ->.
           rewrite Nat.eqb_refl. left. reflexivity.
        -- assert (Hin : In p (cluster_points customers labels i))
             by (apply IH; exists j; split; assumption).
           destruct (l =? i); [right|]; exact Hin.
Qed.

Lemma cluster_points_nil_iff (i : nat) customers labels :
  length labels = length customers ->
  (cluster_points customers labels i = [] <-> ~ In i labels).
Proof.
  intros Hlen. split.
  - intros Hnil Hin. apply In_nth_error in Hin. destruct Hin as [j Hj].
    assert (Hlt : (j < length customers)%nat).
    { rewrite <- Hlen. apply nth_error_Some. congruence. }
    destruct (nth_error customers j) as [p|] eqn:Hp.
    + assert (Hp' : In p (cluster_points customers labels i))
        by (apply in_cluster_points; exists j; split; assumption).
      rewrite Hnil in Hp'. exact Hp'.
    + apply nth_error_None in Hp. lia.
  - intros Hnot. destruct (cluster_points customers labels i) as [|p ps] eqn:E.
    + reflexivity.
    + exfalso. apply Hnot.
      assert (Hin : In p (cluster_points customers labels i))
        by (rewrite E; left; reflexivity).
      apply in_cluster_points in Hin. destruct Hin as [j [_ Hj]].
      eapply nth_error_In. exact Hj.
Qed.

(** ** Service radii *)

Section PlotterFacts.

Import Plotter.

Lemma np_max_ge (ds : list R) : forall d, (d <= np_max d ds)%R.
Proof.
  unfold np_max. induction ds as [|x ds IH]; intros d; cbn.
  - apply Rle_refl.
  - eapply Rle_trans; [apply Rmax_l|apply IH].
Qed.

Lemma np_max_upper (ds : list R) :
  forall d x, In x (d :: ds) -> (x <= np_max d ds)%R.
Proof.
  induction ds as [|y ds IH]; intros d x Hin.
  - destruct Hin as [->|[]]. apply Rle_refl.
  - change (np_max d (y :: ds)) with (np_max (Rmax d y) ds).
    destruct Hin as [->|[->|Hin]].
    + eapply Rle_trans; [apply Rmax_l|apply np_max_ge].
    + eapply Rle_trans; [apply Rmax_r|apply np_max_ge].
    + apply IH. right. exact Hin.
Qed.

Lemma np_max_attained (ds : list R) : forall d, In (np_max d ds) (d :: ds).
Proof.
  induction ds as [|y ds IH]; intros d.
  - left. reflexivity.
  - change (np_max d (y :: ds)) with (np_max (Rmax d y) ds).
    destruct (IH (Rmax d y)) as [H|H].
    + rewrite <- H. unfold Rmax. destruct (Rle_dec d y).
      * right. left. reflexivity.
      * left. reflexivity.
    + right. right. exact H.
Qed.

Lemma service_radius_spec customers labels i facility :
  length labels = length customers ->
  exists r,
    service_radius customers labels i facility = Ok r /\
    is_radius customers labels i facility r.
Proof.
  intros Hlen. unfold service_radius, mask_select.
  rewrite Hlen, Nat.eqb_refl.
  destruct (cluster_points customers labels i) as [|q qs] eqn:E.
  - exists 0%R. split; [reflexivity|]. split.
    + intros j p Hc Hl. exfalso.
      assert (Hin : In p (cluster_points customers labels i))
        by (apply in_cluster_points; exists j; split; assumption).
      rewrite E in Hin. exact Hin.
    + right. split; [|reflexivity].
      apply (cluster_points_nil_iff i customers labels Hlen). exact E.
  - cbn [map]. set (f := fun p => dist p facility).
    exists (np_max (f q) (map f qs)). split; [reflexivity|]. split.
    + intros j p Hc Hl.
      assert (Hin : In p (q :: qs)).
      { rewrite <- E. apply in_cluster_points. exists j. split; assumption. }
      apply np_max_upper. change (f q :: map f qs) with (map f (q :: qs)).
      apply (in_map f) in Hin. exact Hin.
    + left. pose proof (np_max_attained (map f qs) (f q)) as Hat.
      change (f q :: map f qs) with (map f (q :: qs)) in Hat.
      apply in_map_iff in Hat. destruct Hat as [p [Hp Hin]].
      rewrite <- E in Hin. apply in_cluster_points in Hin.
      destruct Hin as [j [Hc Hl]]. exists j, p. auto.
Qed.

Lemma radii_from_spec customers labels :
  length labels = length customers ->
  forall locations i0,
  exists radii,
    radii_from customers labels i0 locations = Ok radii /\
    length radii = length locations /\
    forall k facility,
      nth_error locations k = Some facility ->
      exists r, nth_error radii k = Some r /\
                is_radius customers labels (i0 + k) facility r.
Proof.
  intros Hlen. induction locations as [|f locations IH]; intros i0.
  - exists []. split; [reflexivity|]. split; [reflexivity|].
    intros [|k] facility H; discriminate.
  - destruct (service_radius_spec customers labels i0 f Hlen) as [r [Hr Hspec]].
    destruct (IH (S i0)) as [rs [Hrs [Hlen' Hall]]].
    exists (r :: rs). cbn. rewrite Hr, Hrs.
    split; [reflexivity|]. split; [cbn; congruence|].
    intros [|k] facility Hk; cbn in Hk.
    + injection Hk as <-. exists r. rewrite Nat.add_0_r. auto.
    + destruct (Hall k facility Hk) as [r' [Hr' Hs]].
      exists r'. rewrite Nat.add_succ_r. auto.
Qed.

Lemma radii_from_ok_aligned customers labels i0 facility rest radii :
  radii_from customers labels i0 (facility :: rest) = Ok radii ->
  length labels = length customers.
Proof.
  cbn [radii_from]. unfold service_radius, mask_select.
  destruct (Nat.eqb_spec (length labels) (length customers)) as [E|_].
  - intros _. exact E.
  - discriminate.
Qed.

(** C8.  With one label per customer the radius loop of
    [_plot_optimal_facilities] returns; and whenever it returns, it returns
    one radius per facility, the radius of facility [i] bounds the
    Euclidean distance from the facility to every customer labelled [i]
    and is the distance to one of them, and it is zero when no customer is
    labelled [i]. *)
Theorem service_radius_is_max_distance
    (customers locations : list point) (labels : list nat) :
  (length labels = length customers ->
   exists radii,
     _plot_optimal_facilities customers locations labels = Ok radii) /\
  forall radii,
    _plot_optimal_facilities customers locations labels = Ok radii ->
    length radii = length locations /\
    forall i facility,
      nth_error locations i = Some facility ->
      exists r,
        nth_error radii i = Some r /\
        (forall j p,
           nth_error customers j = Some p -> nth_error labels j = Some i ->
           (dist p facility <= r)%R) /\
        ((exists j p,
            nth_error customers j = Some p /\ nth_error labels j = Some i /\
            dist p facility = r) \/
         (~ In i labels /\ r = 0%R)).
Proof.
  unfold _plot_optimal_facilities. split.
  - intros Hlen.
    destruct (radii_from_spec customers labels Hlen locations 0)
      as [radii [Hr _]].
    exists radii. exact Hr.
  - intros radii Hok. destruct locations as [|f rest].
    + cbn in Hok. injection Hok as <-. split; [reflexivity|].
      intros [|i] facility H; discriminate H.
    + pose proof (radii_from_ok_aligned _ _ _ _ _ _ Hok) as Hlen.
      destruct (radii_from_spec customers labels Hlen (f :: rest) 0)
        as [radii' [Hr [Hl Hall]]].
      assert (radii' = radii) by congruence. subst radii'.
      split; [exact Hl|].
      intros i facility Hi. destruct (Hall i facility Hi) as [r [Hn Hs]].
      exists r. split; [exact Hn|]. exact Hs.
Qed.

Lemma service_radius_is_max_distance_witness :
  exists radii,
    _plot_optimal_facilities
      [(0, 0)%Q; (2, 0)%Q; (9, 9)%Q] [(1, 0)%Q; (5, 5)%Q; (9, 9)%Q]
      [0; 0; 2]%nat = Ok radii.
Proof.
  apply (proj1 (service_radius_is_max_distance
                  [(0, 0)%Q; (2, 0)%Q; (9, 9)%Q]
                  [(1, 0)%Q; (5, 5)%Q; (9, 9)%Q] [0; 0; 2]%nat)).
  reflexivity.
Defined.

End PlotterFacts.

(** ** The clustering call *)

Section RunKMeansFacts.

Import KMeans Optimizer.

Variable converged : list point -> list point -> bool.
Variable max_iter : nat.

Lemma run_kmeans_runs (customers initial : list point) :
  customers <> [] -> initial <> [] ->
  (length initial <= length customers)%nat ->
  run_kmeans (fit converged max_iter) customers initial
    = Ok (lloyd converged (Nat.pred max_iter) customers initial).
Proof.
  intros Hc Hi Hk. unfold run_kmeans, fit. cbn [init n_clusters].
  destruct customers as [|p customers]; [congruence|].
  destruct initial as [|c initial]; [congruence|].
  destruct (Nat.ltb_spec (length (p :: customers)) (length (c :: initial)))
    as [Hlt|_]; [lia|].
  destruct (lloyd converged (Nat.pred max_iter) (p :: customers) (c :: initial)).
  reflexivity.
Qed.

Lemma run_kmeans_raises (customers initial : list point) :
  customers = [] \/ initial = [] \/ (length customers < length initial)%nat ->
  exists e, run_kmeans (fit converged max_iter) customers initial = Raise e.
Proof.
  intros H. unfold run_kmeans, fit. cbn [init n_clusters].
  destruct customers as [|p customers].
  - destruct initial; eexists; reflexivity.
  - destruct initial as [|c initial].
    + eexists; reflexivity.
    + destruct H as [H|[H|H]]; try discriminate.
      apply Nat.ltb_lt in H. rewrite H. eexists; reflexivity.
Qed.

(** C7.  The clustering call raises on an empty customer sequence, on an
    empty initial facility sequence, and when there are more initial
    facilities than customers. *)
Theorem run_kmeans_rejects (customers initial : list point) :
  customers = [] \/ initial = [] \/ (length customers < length initial)%nat ->
  exists e, run_kmeans (fit converged max_iter) customers initial = Raise e.
Proof.
  exact (run_kmeans_raises customers initial).
Qed.

End RunKMeansFacts.

Lemma run_kmeans_rejects_witness :
  exists e, run_kmeans_300 [(0, 0)%Q] [(0, 0)%Q; (1, 1)%Q] = Raise e.
Proof.
  apply (run_kmeans_rejects (KMeans.movement_below (1 # 10000)) 300
           [(0, 0)%Q] [(0, 0)%Q; (1, 1)%Q]).
  right. right. cbn. lia.
Defined.

(** ** One facility *)

Section SingleFacility.

Import KMeans Optimizer.

Variable converged : list point -> list point -> bool.
Variable max_iter : nat.

Lemma assign_single (c : point) (customers : list point) :
  assign [c] customers = repeat 0%nat (length customers).
Proof.
  unfold assign. induction customers as [|p customers IH]; cbn.
  - reflexivity.
  - rewrite IH. reflexivity.
Qed.

Lemma cluster_points_all (customers : list point) :
  cluster_points customers (repeat 0%nat (length customers)) 0 = customers.
Proof.
  induction customers as [|p customers IH]; [reflexivity|].
  cbn [length repeat]. rewrite cluster_points_cons. cbn. rewrite IH.
  reflexivity.
Qed.

Lemma update_single (c : point) (customers : list point) :
  customers <> [] ->
  update customers (repeat 0%nat (length customers)) [c] = [mean customers].
Proof.
  intros Hne. unfold update. cbn. unfold recompute.
  rewrite cluster_points_all.
  destruct customers; [congruence|reflexivity].
Qed.

Lemma lloyd_single (customers : list point) :
  customers <> [] ->
  forall more c,
    lloyd converged more customers [c]
      = ([mean customers], repeat 0%nat (length customers)).
Proof.
  intros Hne. induction more as [|more IH]; intros c; cbn [lloyd];
    rewrite assign_single, update_single by exact Hne.
  - reflexivity.
  - destruct (converged [c] [mean customers]); [reflexivity|apply IH].
Qed.

Lemma run_kmeans_one_facility (customers initial : list point) :
  customers <> [] -> length initial = 1%nat ->
  run_kmeans (fit converged max_iter) customers initial
    = Ok ([mean customers], repeat 0%nat (length customers)).
Proof.
  intros Hne Hk.
  destruct initial as [|c [|c' initial]]; try discriminate Hk.
  rewrite run_kmeans_runs.
  - rewrite lloyd_single by exact Hne. reflexivity.
  - exact Hne.
  - discriminate.
  - destruct customers; [congruence|cbn; lia].
Qed.

(** C2.  With one initial facility and at least one customer, the call
    returns one facility, at the arithmetic mean of all customers, and
    labels every customer 0. *)
Theorem run_kmeans_single_facility (customers initial : list point) :
  customers <> [] -> length initial = 1%nat ->
  run_kmeans (fit converged max_iter) customers initial
    = Ok ([mean customers], repeat 0%nat (length customers)).
Proof.
  exact (run_kmeans_one_facility customers initial).
Qed.

End SingleFacility.

Lemma run_kmeans_single_facility_witness :
  run_kmeans_300 [(0, 0); (10, 0); (1, 7)]%Q [(1, 1)%Q]
    = Ok ([mean [(0, 0); (10, 0); (1, 7)]%Q], repeat 0%nat 3).
Proof.
  apply (run_kmeans_single_facility (KMeans.movement_below (1 # 10000)) 300
           [(0, 0); (10, 0); (1, 7)]%Q [(1, 1)%Q]).
  - discriminate.
  - reflexivity.
Defined.

(** ** The calculate action *)

Section CalculateFacts.

Import KMeansApp.

Variable set_limits :
  DataManager.t -> list point -> list point -> option (list point) ->
  result unit.

(** C5.  When the clustering call raises, the calculate action leaves the
    whole store as it was (customers, initial facilities and both result
    fields), and where the call is reached it shows exactly one box, the
    error box titled "Error" whose message carries the text of the
    failure. *)
Theorem failed_clustering_leaves_store (fit : KMeans.estimator)
    (dm : DataManager.t) (e : exn) :
  Optimizer.run_kmeans fit (DataManager.customer_data dm)
    (DataManager.initial_facility_locations dm) = Raise e ->
  fst (_run_calculation set_limits fit dm) = dm /\
  (DataManager.customer_data dm <> [] ->
   DataManager.initial_facility_locations dm <> [] ->
   _run_calculation set_limits fit dm
     = (dm, [showerror "Error"
               (String.append "An error occurred during calculation: "
                  (str e))])).
Proof.
  intros Hfail. unfold _run_calculation.
  destruct (DataManager.customer_data dm) as [|p ps] eqn:Ec.
  - split; [reflexivity|congruence].
  - destruct (DataManager.initial_facility_locations dm) as [|c cs] eqn:Ei.
    + split; [reflexivity|congruence].
    + rewrite Hfail. split; reflexivity.
Qed.

End CalculateFacts.

Lemma failed_clustering_leaves_store_witness :
  let dm :=
    DataManager.run
      [DataManager.AddCustomer 0 0; DataManager.AddInitialFacility 0 0;
       DataManager.AddInitialFacility 1 1] DataManager.__init__ in
  let fit := KMeans.fit (KMeans.movement_below (1 # 10000)) 300 in
  let set_limits := fun _ _ _ _ => Ok tt in
  fst (KMeansApp._run_calculation set_limits fit dm) = dm /\
  (DataManager.customer_data dm <> [] ->
   DataManager.initial_facility_locations dm <> [] ->
   KMeansApp._run_calculation set_limits fit dm
     = (dm, [KMeansApp.showerror "Error"
               "An error occurred during calculation: more clusters than customers"])).
Proof.
  intros dm fit set_limits.
  apply (failed_clustering_leaves_store set_limits fit dm
           (ValueError "more clusters than customers")).
  reflexivity.
Defined.

(** ** A stored result outlives its customers *)

Section StaleResult.

Import DataManager.

(** Every operation on the customers leaves the stored result as it was,
    whatever it was. *)
Lemma customer_operations_keep_result (self : t) (x y : Q) (file : excel) :
  optimal_facility_locations (clear_customers self)
    = optimal_facility_locations self /\
  cluster_labels (clear_customers self) = cluster_labels self /\
  optimal_facility_locations (add_customer x y self)
    = optimal_facility_locations self /\
  cluster_labels (add_customer x y self) = cluster_labels self /\
  optimal_facility_locations (fst (import_customers_excel file self))
    = optimal_facility_locations self /\
  cluster_labels (fst (import_customers_excel file self))
    = cluster_labels self.
Proof.
  destruct file; repeat split.
Qed.

(** C4, evaluated.  Two customers and one initial facility are entered and
    the calculate action stores a result with two labels.  After
    [clear_customers] the customer sequence is empty and the same result is
    still stored: it no longer has one label per customer, and once one
    customer is entered again the plot, which selects the customers of a
    facility with a mask made from the labels, raises. *)
Theorem clear_customers_keeps_result
    (set_limits :
       DataManager.t -> list point -> list point -> option (list point) ->
       result unit) :
  let entered :=
    run [AddCustomer 0 0; AddCustomer 2 0; AddInitialFacility 1 0] __init__ in
  let computed :=
    fst (KMeansApp._run_calculation set_limits
           (KMeans.fit (KMeans.movement_below (1 # 10000)) 300) entered) in
  let cleared := clear_customers computed in
  aligned computed /\
  cluster_labels computed = Some [0; 0]%nat /\
  customer_data cleared = [] /\
  optimal_facility_locations cleared = optimal_facility_locations computed /\
  optimal_facility_locations cleared <> None /\
  cluster_labels cleared = Some [0; 0]%nat /\
  ~ aligned cleared /\
  Plotter.update_plot set_limits (add_customer 5 5 cleared)
    = Raise (IndexError "boolean index did not match indexed array").
Proof.
  cbv zeta.
  assert (E : fst (KMeansApp._run_calculation set_limits
                     (KMeans.fit (KMeans.movement_below (1 # 10000)) 300)
                     (run [AddCustomer 0 0; AddCustomer 2 0;
                           AddInitialFacility 1 0] __init__))
              = set_optimal_facilities [mean [(0, 0); (2, 0)]%Q] [0; 0]%nat
                  (run [AddCustomer 0 0; AddCustomer 2 0;
                        AddInitialFacility 1 0] __init__)).
  { unfold KMeansApp._run_calculation. cbn [run fold_left step].
    cbn [add_customer add_initial_facility customer_data
         initial_facility_locations __init__ app].
    set (r := Optimizer.run_kmeans _ _ _).
    assert (Hr : r = Ok ([mean [(0, 0); (2, 0)]%Q], [0; 0]%nat)).
    { subst r.
      apply (run_kmeans_one_facility (KMeans.movement_below (1 # 10000))
               300 [(0, 0); (2, 0)]%Q [(1, 0)%Q]); [discriminate|reflexivity]. }
    rewrite Hr.
    destruct (KMeansApp._update_display _ _); reflexivity. }
  rewrite E. unfold aligned. cbn.
  repeat split; try discriminate.
  intros [H _]. discriminate H.
Qed.

End StaleResult.

(** * Further properties of the code *)

(** ** How the operations of the store compose *)

Section DataManagerComposition.

Import DataManager.

Lemma store_ext (a b : t) :
  customer_data a = customer_data b ->
  initial_facility_locations a = initial_facility_locations b ->
  optimal_facility_locations a = optimal_facility_locations b ->
  cluster_labels a = cluster_labels b ->
  a = b.
Proof.
  destruct a, b. cbn. intros -> -> -> ->. reflexivity.
Qed.

Lemma step_on_customers (o : op) (self : t) :
  on_customers o = true ->
  initial_facility_locations (step o self) = initial_facility_locations self /\
  optimal_facility_locations (step o self) = optimal_facility_locations self /\
  cluster_labels (step o self) = cluster_labels self.
Proof.
  destruct o as [x y|x y| | |locations labels|file|file]; cbn;
    try discriminate; intros _; try destruct file; cbn; auto.
Qed.

Lemma step_off_customers (o : op) (self : t) :
  on_customers o = false -> customer_data (step o self) = customer_data self.
Proof.
  destruct o as [x y|x y| | |locations labels|file|file]; cbn;
    try discriminate; intros _; try destruct file; reflexivity.
Qed.

(** What an operation on the customers makes of the customer sequence
    depends on that sequence alone; likewise for the other operations and
    the other three fields. *)
Lemma step_customers_congr (o : op) (a b : t) :
  customer_data a = customer_data b ->
  customer_data (step o a) = customer_data (step o b).
Proof.
  intros E.
  destruct o as [x y|x y| | |locations labels|file|file]; cbn;
    try destruct file; cbn; congruence.
Qed.

Lemma step_rest_congr (o : op) (a b : t) :
  initial_facility_locations a = initial_facility_locations b ->
  optimal_facility_locations a = optimal_facility_locations b ->
  cluster_labels a = cluster_labels b ->
  initial_facility_locations (step o a) = initial_facility_locations (step o b) /\
  optimal_facility_locations (step o a) = optimal_facility_locations (step o b) /\
  cluster_labels (step o a) = cluster_labels (step o b).
Proof.
  intros E1 E2 E3.
  destruct o as [x y|x y| | |locations labels|file|file]; cbn;
    try destruct file; cbn; repeat split; congruence.
Qed.

(** X1.  An operation on the customers and an operation on anything else
    can be swapped: the store ends up the same. *)
Theorem customer_operations_commute (o1 o2 : DataManager.op) (self : DataManager.t) :
  on_customers o1 = true -> on_customers o2 = false ->
  step o1 (step o2 self) = step o2 (step o1 self).
Proof.
  intros H1 H2.
  destruct (step_on_customers o1 (step o2 self) H1) as [A1 [A2 A3]].
  destruct (step_on_customers o1 self H1) as [B1 [B2 B3]].
  destruct (step_rest_congr o2 (step o1 self) self B1 B2 B3) as [C1 [C2 C3]].
  apply store_ext.
  - rewrite (step_off_customers o2 (step o1 self) H2).
    apply step_customers_congr, step_off_customers, H2.
  - congruence.
  - congruence.
  - congruence.
Qed.

Lemma customer_operations_commute_witness :
  step (AddCustomer 3 4) (step ClearFacilities
     (set_optimal_facilities [(1, 0)%Q] [0]%nat (add_customer 0 0 __init__)))
  = step ClearFacilities (step (AddCustomer 3 4)
     (set_optimal_facilities [(1, 0)%Q] [0]%nat (add_customer 0 0 __init__))).
Proof.
  apply (customer_operations_commute (AddCustomer 3 4) ClearFacilities
           (set_optimal_facilities [(1, 0)%Q] [0]%nat (add_customer 0 0 __init__)));
    reflexivity.
Defined.

Lemma run_cons (o : op) (ops : list op) (self : t) :
  run (o :: ops) self = run ops (step o self).
Proof. reflexivity. Qed.

Lemma run_customers_only (ops : list op) :
  forall a b,
    customer_data a = customer_data b ->
    customer_data (run ops a)
      = customer_data (run (filter on_customers ops) b).
Proof.
  induction ops as [|o ops IH]; intros a b E; [exact E|].
  rewrite run_cons. cbn [filter].
  destruct (on_customers o) eqn:Ho.
  - rewrite run_cons. apply IH, step_customers_congr, E.
  - apply IH. rewrite (step_off_customers o a Ho). exact E.
Qed.

Lemma run_rest_only (ops : list op) :
  forall a b,
    initial_facility_locations a = initial_facility_locations b ->
    optimal_facility_locations a = optimal_facility_locations b ->
    cluster_labels a = cluster_labels b ->
    let a' := run ops a in
    let b' := run (filter (fun o => negb (on_customers o)) ops) b in
    initial_facility_locations a' = initial_facility_locations b' /\
    optimal_facility_locations a' = optimal_facility_locations b' /\
    cluster_labels a' = cluster_labels b'.
Proof.
  induction ops as [|o ops IH]; intros a b E1 E2 E3; [cbn; auto|].
  cbn zeta. rewrite run_cons. cbn [filter].
  destruct (on_customers o) eqn:Ho; cbn [negb].
  - destruct (step_on_customers o a Ho) as [A1 [A2 A3]].
    apply IH; congruence.
  - rewrite run_cons.
    destruct (step_rest_congr o a b E1 E2 E3) as [A1 [A2 A3]].
    apply IH; assumption.
Qed.

Lemma run_splits_by_field_aux (ops : list op) (self : t) :
  customer_data (run ops self)
    = customer_data (run (filter on_customers ops) self) /\
  initial_facility_locations (run ops self)
    = initial_facility_locations
        (run (filter (fun o => negb (on_customers o)) ops) self) /\
  optimal_facility_locations (run ops self)
    = optimal_facility_locations
        (run (filter (fun o => negb (on_customers o)) ops) self) /\
  cluster_labels (run ops self)
    = cluster_labels (run (filter (fun o => negb (on_customers o)) ops) self).
Proof.
  split; [apply run_customers_only; reflexivity|].
  apply (run_rest_only ops self self); reflexivity.
Qed.

(** X2.  After any sequence of operations the customer sequence is what the
    operations on the customers alone would have made it, and the initial
    facilities and both result fields are what the other operations alone
    would have made them. *)
Theorem run_splits_by_field (ops : list DataManager.op) (self : DataManager.t) :
  customer_data (run ops self)
    = customer_data (run (filter on_customers ops) self) /\
  initial_facility_locations (run ops self)
    = initial_facility_locations
        (run (filter (fun o => negb (on_customers o)) ops) self) /\
  optimal_facility_locations (run ops self)
    = optimal_facility_locations
        (run (filter (fun o => negb (on_customers o)) ops) self) /\
  cluster_labels (run ops self)
    = cluster_labels (run (filter (fun o => negb (on_customers o)) ops) self).
Proof.
  exact (run_splits_by_field_aux ops self).
Qed.

Lemma run_app (ops1 ops2 : list op) (self : t) :
  run (ops1 ++ ops2) self = run ops2 (run ops1 self).
Proof. unfold run. apply fold_left_app. Qed.

(** X3.  Clearing forgets: [clear_customers] after any sequence of
    operations gives the store that it gives after the operations on the
    other fields alone, and [clear_facilities] gives the store that it gives
    after the operations on the customers alone. *)
Theorem clear_forgets (ops : list DataManager.op) (self : DataManager.t) :
  clear_customers (run ops self)
    = clear_customers (run (filter (fun o => negb (on_customers o)) ops) self) /\
  clear_facilities (run ops self)
    = clear_facilities (run (filter on_customers ops) self).
Proof.
  destruct (run_splits_by_field_aux ops self) as [Hc [Hi [Ho Hl]]].
  split; apply store_ext; cbn; congruence.
Qed.

End DataManagerComposition.

(** ** Importing *)

Section ImportFacts.

Import DataManager.

Lemma import_customers_rows (rows : list point) :
  forall self,
    fst (import_customers_excel (Rows rows) self)
    = fold_left (fun s p => add_customer (fst p) (snd p) s) rows self.
Proof.
  induction rows as [|[x y] rows IH]; intros self.
  - cbn. apply store_ext; cbn; auto using app_nil_r.
  - cbn [fold_left fst snd]. rewrite <- IH.
    apply store_ext; cbn; auto. rewrite <- app_assoc. reflexivity.
Qed.

Lemma import_facilities_rows (rows : list point) :
  forall self,
    fst (import_facilities_excel (Rows rows) self)
    = fold_left (fun s p => add_initial_facility (fst p) (snd p) s) rows self.
Proof.
  induction rows as [|[x y] rows IH]; intros self.
  - cbn. apply store_ext; cbn; auto using app_nil_r.
  - cbn [fold_left fst snd]. rewrite <- IH.
    apply store_ext; cbn; auto. rewrite <- app_assoc. reflexivity.
Qed.

(** X4.  An import either fails as a whole or adds every row: when no file
    is chosen, the file cannot be read or a column is missing, the store is
    returned as it was, with [False]; otherwise the result is [True] and the
    store is the one that adding the rows one by one, in order, gives. *)
Theorem import_all_or_nothing (file : DataManager.excel) (self : DataManager.t) :
  match file with
  | Rows rows =>
      import_customers_excel file self
        = (fold_left (fun s p => add_customer (fst p) (snd p) s) rows self,
           true) /\
      import_facilities_excel file self
        = (fold_left (fun s p => add_initial_facility (fst p) (snd p) s)
             rows self, true)
  | _ =>
      import_customers_excel file self = (self, false) /\
      import_facilities_excel file self = (self, false)
  end.
Proof.
  destruct file as [|msg| |rows]; try (split; reflexivity).
  split.
  - rewrite <- import_customers_rows. reflexivity.
  - rewrite <- import_facilities_rows. reflexivity.
Qed.

End ImportFacts.

(** ** When the plot can be drawn *)

Section RedrawFacts.

Import DataManager Plotter.

Variable set_limits :
  DataManager.t -> list point -> list point -> option (list point) ->
  result unit.

Lemma radii_from_misaligned customers labels i0 facility rest :
  length labels <> length customers ->
  radii_from customers labels i0 (facility :: rest)
    = Raise (IndexError "boolean index did not match indexed array").
Proof.
  intros Hne. cbn [radii_from]. unfold service_radius, mask_select.
  destruct (Nat.eqb_spec (length labels) (length customers)) as [E|_];
    [contradiction|reflexivity].
Qed.

Lemma update_plot_with_result (dm : t) p ps labels locations :
  customer_data dm = p :: ps ->
  cluster_labels dm = Some labels ->
  optimal_facility_locations dm = Some locations ->
  update_plot set_limits dm =
    if length (p :: ps) <=? length labels
    then
      match radii_from (p :: ps) labels 0 locations with
      | Raise e => Raise e
      | Ok radii =>
          match _adjust_plot_limits set_limits dm (p :: ps)
                  (initial_facility_locations dm) (Some locations) with
          | Raise e => Raise e
          | Ok _ => Ok radii
          end
      end
    else Raise (IndexError "index out of bounds").
Proof.
  intros Hc Hl Ho. unfold update_plot. rewrite Hc, Hl, Ho.
  unfold _plot_clustered_customers, _plot_optimal_facilities.
  destruct (length (p :: ps) <=? length labels); reflexivity.
Qed.

Lemma update_plot_without_result (dm : t) p ps :
  customer_data dm = p :: ps ->
  cluster_labels dm = None \/ optimal_facility_locations dm = None ->
  update_plot set_limits dm =
    match set_limits dm (p :: ps) (initial_facility_locations dm)
            (optimal_facility_locations dm) with
    | Raise e => Raise e
    | Ok _ => Ok []
    end.
Proof.
  intros Hc Hno. unfold update_plot, _adjust_plot_limits. rewrite Hc.
  destruct Hno as [Hl|Ho].
  - rewrite Hl. destruct (optimal_facility_locations dm); reflexivity.
  - rewrite Ho. destruct (cluster_labels dm); reflexivity.
Qed.

Lemma adjust_with_labels (dm : t) p ps labels locations :
  customer_data dm = p :: ps ->
  cluster_labels dm = Some labels ->
  length labels = length (p :: ps) ->
  _adjust_plot_limits set_limits dm (p :: ps)
    (initial_facility_locations dm) (Some locations)
  = set_limits dm (p :: ps) (initial_facility_locations dm) (Some locations).
Proof.
  intros Hc Hl Hlen. unfold _adjust_plot_limits. rewrite Hl, Hc.
  destruct (radii_from_spec (p :: ps) labels Hlen locations 0)
    as [radii [Hr _]].
  rewrite Hr. reflexivity.
Qed.

Lemma update_plot_aligned (dm : t) p ps labels locations :
  customer_data dm = p :: ps ->
  cluster_labels dm = Some labels ->
  optimal_facility_locations dm = Some locations ->
  length labels = length (p :: ps) ->
  exists radii,
    length radii = length locations /\
    update_plot set_limits dm =
      match set_limits dm (p :: ps) (initial_facility_locations dm)
              (Some locations) with
      | Raise e => Raise e
      | Ok _ => Ok radii
      end.
Proof.
  intros Hc Hl Ho Hlen.
  rewrite (update_plot_with_result dm p ps labels locations Hc Hl Ho).
  destruct (Nat.leb_spec (length (p :: ps)) (length labels)); [|lia].
  destruct (radii_from_spec (p :: ps) labels Hlen locations 0)
    as [radii [Hr [Hn _]]].
  exists radii. split; [exact Hn|].
  rewrite Hr, (adjust_with_labels dm p ps labels locations Hc Hl Hlen).
  reflexivity.
Qed.

Lemma update_plot_needs_labels (dm : t) p ps labels locations :
  customer_data dm = p :: ps ->
  cluster_labels dm = Some labels ->
  optimal_facility_locations dm = Some locations ->
  (length labels < length (p :: ps))%nat ->
  update_plot set_limits dm = Raise (IndexError "index out of bounds").
Proof.
  intros Hc Hl Ho Hlt.
  rewrite (update_plot_with_result dm p ps labels locations Hc Hl Ho).
  destruct (Nat.leb_spec (length (p :: ps)) (length labels)); [lia|reflexivity].
Qed.

(** X5.  The outcome of a redraw.  Without customers nothing is drawn and
    it returns.  With customers and a stored result, fewer labels than
    customers make the colouring of the customers raise [IndexError], and
    more labels than customers make the first radius raise [IndexError].
    In the remaining cases (no stored result, or one label per customer)
    the outcome is that of setting the axis limits: the redraw returns when
    matplotlib accepts them, with one radius per stored facility when there
    is a result, and raises what matplotlib raises otherwise. *)
Theorem update_plot_outcome (dm : DataManager.t) :
  (customer_data dm = [] -> update_plot set_limits dm = Ok []) /\
  (customer_data dm <> [] ->
   cluster_labels dm = None \/ optimal_facility_locations dm = None ->
   update_plot set_limits dm =
     match set_limits dm (customer_data dm) (initial_facility_locations dm)
             (optimal_facility_locations dm) with
     | Raise e => Raise e
     | Ok _ => Ok []
     end) /\
  forall labels locations,
    customer_data dm <> [] ->
    cluster_labels dm = Some labels ->
    optimal_facility_locations dm = Some locations ->
    ((length labels < length (customer_data dm))%nat ->
     update_plot set_limits dm = Raise (IndexError "index out of bounds")) /\
    ((length (customer_data dm) < length labels)%nat -> locations <> [] ->
     update_plot set_limits dm
       = Raise (IndexError "boolean index did not match indexed array")) /\
    (length labels = length (customer_data dm) ->
     exists radii,
       length radii = length locations /\
       update_plot set_limits dm =
         match set_limits dm (customer_data dm)
                 (initial_facility_locations dm) (Some locations) with
         | Raise e => Raise e
         | Ok _ => Ok radii
         end).
Proof.
  split; [|split].
  - intros H. unfold update_plot. rewrite H. reflexivity.
  - intros Hc Hno. destruct (customer_data dm) as [|p ps] eqn:Ec; [congruence|].
    apply (update_plot_without_result dm p ps Ec Hno).
  - intros labels locations Hc Hl Ho.
    destruct (customer_data dm) as [|p ps] eqn:Ec; [congruence|].
    split; [|split].
    + intros Hlt.
      apply (update_plot_needs_labels dm p ps labels locations Ec Hl Ho Hlt).
    + intros Hlt Hne.
      rewrite (update_plot_with_result dm p ps labels locations Ec Hl Ho).
      destruct (Nat.leb_spec (length (p :: ps)) (length labels)); [|lia].
      destruct locations as [|f rest]; [congruence|].
      rewrite radii_from_misaligned by lia. reflexivity.
    + intros Heq.
      apply (update_plot_aligned dm p ps labels locations Ec Hl Ho Heq).
Qed.

(** X6.  A stored result does not survive new customers on the screen: when
    the store holds a result with one label per customer, the redraw after
    [add_customer], and after an import of at least one customer row, raises
    [IndexError]. *)
Theorem new_customers_break_redraw (dm : DataManager.t)
    (labels : list nat) (locations : list point) :
  cluster_labels dm = Some labels ->
  optimal_facility_locations dm = Some locations ->
  length labels = length (customer_data dm) ->
  (forall x y,
     update_plot set_limits (add_customer x y dm)
       = Raise (IndexError "index out of bounds")) /\
  (forall row rows,
     update_plot set_limits
       (fst (import_customers_excel (Rows (row :: rows)) dm))
       = Raise (IndexError "index out of bounds")).
Proof.
  intros Hl Ho Hlen. split.
  - intros x y.
    destruct (customer_data dm ++ [(x, y)]) as [|p ps] eqn:E.
    + destruct (customer_data dm); discriminate E.
    + apply (update_plot_needs_labels _ p ps labels locations);
        try assumption.
      rewrite <- E, length_app. cbn. lia.
  - intros row rows.
    destruct (customer_data dm ++ row :: rows) as [|p ps] eqn:E.
    + destruct (customer_data dm); discriminate E.
    + apply (update_plot_needs_labels _ p ps labels locations);
        try assumption.
      rewrite <- E, length_app. cbn. lia.
Qed.

End RedrawFacts.

Lemma update_plot_outcome_witness :
  let dm :=
    DataManager.set_optimal_facilities [(1, 0)%Q] [0; 0]%nat
      (DataManager.add_customer 2 0
         (DataManager.add_customer 0 0 DataManager.__init__)) in
  exists radii,
    length radii = 1%nat /\
    Plotter.update_plot (fun _ _ _ _ => Ok tt) dm = Ok radii.
Proof.
  intros dm.
  destruct (update_plot_outcome (fun _ _ _ _ => Ok tt) dm) as [_ [_ H]].
  destruct (H [0; 0]%nat [(1, 0)%Q]) as [_ [_ Haligned]];
    [discriminate|reflexivity|reflexivity|].
  apply Haligned. reflexivity.
Defined.

Lemma new_customers_break_redraw_witness :
  (forall x y,
     Plotter.update_plot (fun _ _ _ _ => Ok tt)
       (DataManager.add_customer x y
          (DataManager.set_optimal_facilities [(1, 0)%Q] [0; 0]%nat
             (DataManager.add_customer 2 0
                (DataManager.add_customer 0 0 DataManager.__init__))))
       = Raise (IndexError "index out of bounds")) /\
  (forall row rows,
     Plotter.update_plot (fun _ _ _ _ => Ok tt)
       (fst (DataManager.import_customers_excel
               (DataManager.Rows (row :: rows))
               (DataManager.set_optimal_facilities [(1, 0)%Q] [0; 0]%nat
                  (DataManager.add_customer 2 0
                     (DataManager.add_customer 0 0 DataManager.__init__)))))
       = Raise (IndexError "index out of bounds")).
Proof.
  apply (new_customers_break_redraw (fun _ _ _ _ => Ok tt)
           (DataManager.set_optimal_facilities [(1, 0)%Q] [0; 0]%nat
              (DataManager.add_customer 2 0
                 (DataManager.add_customer 0 0 DataManager.__init__)))
           [0; 0]%nat [(1, 0)%Q]); reflexivity.
Defined.

(** ** Radii are lengths *)

Section RadiiFacts.

Import Plotter.

Lemma dist_nonneg (p c : point) : (0 <= dist p c)%R.
Proof. unfold dist. apply sqrt_pos. Qed.

Lemma service_radius_nonneg customers labels i facility r :
  service_radius customers labels i facility = Ok r -> (0 <= r)%R.
Proof.
  unfold service_radius.
  destruct (mask_select customers labels i) as [pts|e]; [|discriminate].
  destruct pts as [|q qs]; cbn [map].
  - intros H. injection H as <-. apply Rle_refl.
  - intros H. injection H as <-.
    eapply Rle_trans; [apply (dist_nonneg q facility)|apply np_max_ge].
Qed.

Lemma radii_from_nonneg customers labels :
  forall locations i0 radii,
    radii_from customers labels i0 locations = Ok radii ->
    forall r, In r radii -> (0 <= r)%R.
Proof.
  induction locations as [|f rest IH]; intros i0 radii H r Hin.
  - cbn in H. injection H as <-. destruct Hin.
  - cbn [radii_from] in H.
    destruct (service_radius customers labels i0 f) as [r0|e] eqn:E0;
      [|discriminate].
    destruct (radii_from customers labels (S i0) rest) as [rs|e] eqn:E1;
      [|discriminate].
    injection H as <-. destruct Hin as [<-|Hin].
    + eapply service_radius_nonneg. exact E0.
    + eapply IH; eassumption.
Qed.

(** X8.  Every service radius that [_plot_optimal_facilities] computes is
    non-negative, so that it can serve as the radius of a circle. *)
Theorem service_radii_nonnegative (customers locations : list point)
    (labels : list nat) (radii : list R) :
  _plot_optimal_facilities customers locations labels = Ok radii ->
  forall r, In r radii -> (0 <= r)%R.
Proof.
  unfold _plot_optimal_facilities. apply radii_from_nonneg.
Qed.

Lemma service_radii_nonnegative_witness : (0 <= 0)%R.
Proof.
  apply (service_radii_nonnegative [(0, 0)%Q] [(3, 4)%Q] [1]%nat [0%R]).
  - reflexivity.
  - left. reflexivity.
Defined.

End RadiiFacts.

(** ** The legend *)

Section LegendFacts.

Import Plotter.

Variable H : Type.

Lemma firstn_length_app (A : Type) (pre rest : list A) :
  firstn (length pre) (pre ++ rest) = pre.
Proof.
  induction pre as [|a pre IH]; cbn; [reflexivity|]. rewrite IH. reflexivity.
Qed.

Lemma seen_before (l : string) (pre : list string) :
  existsb (String.eqb l) pre = true <-> In l pre.
Proof.
  rewrite existsb_exists. split.
  - intros [x [Hin Heq]]. apply String.eqb_eq in Heq. subst x. exact Hin.
  - intros Hin. exists l. split; [exact Hin|apply String.eqb_refl].
Qed.

Lemma unique_from_step (pre : list string) (l0 : string) (rl : list string)
    (h0 : H) (rh : list H) :
  unique_from (pre ++ l0 :: rl) (length pre) (combine (h0 :: rh) (l0 :: rl)) =
  if existsb (String.eqb l0) pre
  then unique_from ((pre ++ [l0]) ++ rl) (length (pre ++ [l0])) (combine rh rl)
  else (h0, l0)
         :: unique_from ((pre ++ [l0]) ++ rl) (length (pre ++ [l0]))
              (combine rh rl).
Proof.
  cbn [combine unique_from]. rewrite firstn_length_app.
  rewrite <- app_assoc. cbn [app].
  rewrite length_app. cbn [length]. rewrite Nat.add_1_r. reflexivity.
Qed.

Lemma unique_from_spec :
  forall (rl pre : list string) (rh : list H) (h : H) (l : string),
    In (h, l) (unique_from (pre ++ rl) (length pre) (combine rh rl)) <->
    exists k,
      nth_error rh k = Some h /\ nth_error rl k = Some l /\ ~ In l pre /\
      forall j, (j < k)%nat -> nth_error rl j <> Some l.
Proof.
  induction rl as [|l0 rl IH]; intros pre rh h l.
  - destruct rh; cbn; (split; [tauto|]); intros [[|k] [_ [Hl _]]]; discriminate.
  - destruct rh as [|h0 rh].
    + cbn. split; [tauto|]. intros [[|k] [Hh _]]; discriminate.
    + rewrite unique_from_step.
      assert (Hrest :
        In (h, l)
          (unique_from ((pre ++ [l0]) ++ rl) (length (pre ++ [l0]))
             (combine rh rl)) <->
        exists k,
          nth_error (h0 :: rh) (S k) = Some h /\
          nth_error (l0 :: rl) (S k) = Some l /\ ~ In l pre /\
          forall j, (j < S k)%nat -> nth_error (l0 :: rl) j <> Some l).
      { rewrite IH. split.
        - intros [k [Hh [Hl [Hpre Hj]]]]. exists k. cbn.
          split; [exact Hh|]. split; [exact Hl|]. split.
          + intros Hin. apply Hpre, in_or_app. left. exact Hin.
          + intros [|j] Hlt; cbn.
            * intros E. injection E as ->. apply Hpre, in_or_app.
              right. left. reflexivity.
            * apply Hj. lia.
        - intros [k [Hh [Hl [Hpre Hj]]]]. exists k. cbn in Hh, Hl.
          split; [exact Hh|]. split; [exact Hl|]. split.
          + intros Hin. apply in_app_or in Hin. destruct Hin as [Hin|[->|[]]].
            * exact (Hpre Hin).
            * apply (Hj 0%nat); [lia|reflexivity].
          + intros j Hlt. apply (Hj (S j)). lia. }
      destruct (existsb (String.eqb l0) pre) eqn:Hseen.
      * apply seen_before in Hseen. rewrite Hrest. split.
        -- intros [k Hk]. exists (S k). exact Hk.
        -- intros [[|k] [Hh [Hl [Hpre Hj]]]].
           ++ cbn in Hl. injection Hl as ->. contradiction.
           ++ exists k. auto.
      * assert (Hnew : ~ In l0 pre).
        { intros Hin. apply seen_before in Hin. congruence. }
        cbn [In]. rewrite Hrest. split.
        -- intros [E|[k Hk]].
           ++ injection E as -> ->. exists 0%nat. cbn.
              split; [reflexivity|]. split; [reflexivity|].
              split; [exact Hnew|]. intros j Hlt. lia.
           ++ exists (S k). exact Hk.
        -- intros [[|k] [Hh [Hl [Hpre Hj]]]].
           ++ cbn in Hh, Hl. injection Hh as ->. injection Hl as ->.
              left. reflexivity.
           ++ right. exists k. auto.
Qed.

Lemma unique_from_nodup :
  forall (rl pre : list string) (rh : list H),
    NoDup (map snd (unique_from (pre ++ rl) (length pre) (combine rh rl))).
Proof.
  induction rl as [|l0 rl IH]; intros pre rh.
  - destruct rh; cbn; constructor.
  - destruct rh as [|h0 rh]; [cbn; constructor|].
    rewrite unique_from_step.
    destruct (existsb (String.eqb l0) pre); [apply IH|].
    cbn [map snd]. constructor; [|apply IH].
    intros Hin. apply in_map_iff in Hin. destruct Hin as [[h l] [E Hin]].
    cbn in E. subst l. apply unique_from_spec in Hin.
    destruct Hin as [k [_ [_ [Hpre _]]]].
    apply Hpre, in_or_app. right. left. reflexivity.
Qed.

(** X10.  The legend keeps one entry per label: no label occurs twice among
    the entries kept, and a handle with its label is kept exactly when it
    stands at the first position at which that label occurs. *)
Theorem legend_keeps_first_of_each_label (handles : list H)
    (labels : list string) :
  NoDup (map snd (unique handles labels)) /\
  forall h l,
    In (h, l) (unique handles labels) <->
    exists i,
      nth_error handles i = Some h /\ nth_error labels i = Some l /\
      forall j, (j < i)%nat -> nth_error labels j <> Some l.
Proof.
  unfold unique. split.
  - apply (unique_from_nodup labels [] handles).
  - intros h l. rewrite (unique_from_spec labels [] handles h l). split.
    + intros [k [Hh [Hl [_ Hj]]]]. exists k. auto.
    + intros [k [Hh [Hl Hj]]]. exists k. cbn. auto.
Qed.

End LegendFacts.

(** ** The calculate action, all paths *)

Section CalculatePaths.

Import KMeansApp.

Variable set_limits :
  DataManager.t -> list point -> list point -> option (list point) ->
  result unit.

Variable fit : KMeans.estimator.

Lemma run_calculation_reached (dm : DataManager.t) :
  DataManager.customer_data dm <> [] ->
  DataManager.initial_facility_locations dm <> [] ->
  _run_calculation set_limits fit dm =
    match Optimizer.run_kmeans fit (DataManager.customer_data dm)
            (DataManager.initial_facility_locations dm) with
    | Raise e => (dm, [calculation_error e])
    | Ok (optimal_locations, cluster_labels) =>
        let dm' :=
          DataManager.set_optimal_facilities optimal_locations cluster_labels dm
        in
        match _update_display set_limits dm' with
        | Raise e => (dm', [calculation_error e])
        | Ok _ =>
            (dm', [showinfo "Calculation Complete"
                     "Optimal facility locations calculated!"])
        end
    end.
Proof.
  intros Hc Hf. unfold _run_calculation.
  destruct (DataManager.customer_data dm); [congruence|].
  destruct (DataManager.initial_facility_locations dm); [congruence|].
  reflexivity.
Qed.

(** X11.  The guards of the calculate action.  Without customers it shows
    the "No Customers" warning, and with customers but without initial
    facilities the "No Facilities" warning; in both cases the store is
    returned as it was, whatever the clustering library would do.  On every
    path the action leaves the two entered sequences as they were. *)
Theorem calculate_guards (dm : DataManager.t) :
  (DataManager.customer_data dm = [] ->
   _run_calculation set_limits fit dm
     = (dm, [showwarning "No Customers"
               "Please add customer locations first."])) /\
  (DataManager.customer_data dm <> [] ->
   DataManager.initial_facility_locations dm = [] ->
   _run_calculation set_limits fit dm
     = (dm, [showwarning "No Facilities"
               "Please add initial facility locations first."])) /\
  DataManager.customer_data (fst (_run_calculation set_limits fit dm))
    = DataManager.customer_data dm /\
  DataManager.initial_facility_locations
    (fst (_run_calculation set_limits fit dm))
    = DataManager.initial_facility_locations dm.
Proof.
  unfold _run_calculation.
  destruct (DataManager.customer_data dm) as [|p ps] eqn:Ec.
  - split; [reflexivity|]. split; [congruence|]. cbn. split; [exact Ec|reflexivity].
  - destruct (DataManager.initial_facility_locations dm) as [|c cs] eqn:Ei.
    + split; [discriminate|]. split; [reflexivity|]. cbn.
      split; [exact Ec|exact Ei].
    + split; [discriminate|]. split; [discriminate|].
      destruct (Optimizer.run_kmeans fit (p :: ps) (c :: cs)) as [[locs labels]|e].
      * destruct (_update_display _ _); cbn; split; assumption.
      * cbn. split; assumption.
Qed.

(** X12.  When the clustering call returns, the calculate action stores
    exactly the returned facilities and labels, and the redraw that follows
    decides the box.  With one label per customer: when matplotlib accepts
    the axis limits the "Calculation Complete" box is shown, and when it
    raises, the "Error" box carrying its text is shown while the result
    stays stored.  In general, whatever the redraw raises is shown in the
    "Error" box, and the result stays stored. *)
Theorem calculate_stores_result (dm : DataManager.t)
    (locations : list point) (labels : list nat) :
  DataManager.customer_data dm <> [] ->
  DataManager.initial_facility_locations dm <> [] ->
  Optimizer.run_kmeans fit (DataManager.customer_data dm)
    (DataManager.initial_facility_locations dm) = Ok (locations, labels) ->
  let dm' := DataManager.set_optimal_facilities locations labels dm in
  fst (_run_calculation set_limits fit dm) = dm' /\
  (length labels = length (DataManager.customer_data dm) ->
   (set_limits dm' (DataManager.customer_data dm)
      (DataManager.initial_facility_locations dm) (Some locations) = Ok tt ->
    snd (_run_calculation set_limits fit dm)
      = [showinfo "Calculation Complete"
           "Optimal facility locations calculated!"]) /\
   (forall e,
      set_limits dm' (DataManager.customer_data dm)
        (DataManager.initial_facility_locations dm) (Some locations)
        = Raise e ->
      snd (_run_calculation set_limits fit dm)
        = [showerror "Error"
             (String.append "An error occurred during calculation: "
                (str e))])) /\
  (forall e,
     Plotter.update_plot set_limits dm' = Raise e ->
     snd (_run_calculation set_limits fit dm)
       = [showerror "Error"
            (String.append "An error occurred during calculation: "
               (str e))]).
Proof.
  intros Hc Hf Hrun. cbv zeta.
  rewrite (run_calculation_reached dm Hc Hf), Hrun.
  cbv zeta. unfold _update_display.
  set (dm' := DataManager.set_optimal_facilities locations labels dm).
  destruct (DataManager.customer_data dm) as [|p ps] eqn:Ec; [congruence|].
  assert (Ec' : DataManager.customer_data dm' = p :: ps) by exact Ec.
  split; [|split].
  - destruct (Plotter.update_plot set_limits dm'); reflexivity.
  - intros Hlen.
    destruct (update_plot_aligned set_limits dm' p ps labels locations
                Ec' eq_refl eq_refl Hlen) as [radii [_ E]].
    rewrite E. cbn [DataManager.initial_facility_locations dm'
                    DataManager.set_optimal_facilities].
    split.
    + intros Hok. rewrite Hok. reflexivity.
    + intros e He. rewrite He. reflexivity.
  - intros e He. rewrite He. reflexivity.
Qed.

End CalculatePaths.

Lemma calculate_guards_witness :
  KMeansApp._run_calculation (fun _ _ _ _ => Ok tt)
    (KMeans.fit (KMeans.movement_below (1 # 10000)) 300) DataManager.__init__
  = (DataManager.__init__,
     [KMeansApp.showwarning "No Customers"
        "Please add customer locations first."]).
Proof.
  apply (proj1 (calculate_guards (fun _ _ _ _ => Ok tt)
                  (KMeans.fit (KMeans.movement_below (1 # 10000)) 300)
                  DataManager.__init__)).
  reflexivity.
Defined.

Lemma calculate_stores_result_witness :
  let dm :=
    DataManager.run
      [DataManager.AddCustomer 0 0; DataManager.AddCustomer 2 0;
       DataManager.AddInitialFacility 1 0] DataManager.__init__ in
  let fit := KMeans.fit (KMeans.movement_below (1 # 10000)) 300 in
  let set_limits := fun _ _ _ _ => Ok tt in
  snd (KMeansApp._run_calculation set_limits fit dm)
    = [KMeansApp.showinfo "Calculation Complete"
         "Optimal facility locations calculated!"].
Proof.
  intros dm fit set_limits.
  destruct (calculate_stores_result set_limits fit dm
              [mean [(0, 0); (2, 0)]%Q] [0; 0]%nat) as [_ [H _]].
  - discriminate.
  - discriminate.
  - apply (run_kmeans_one_facility (KMeans.movement_below (1 # 10000)) 300
             [(0, 0); (2, 0)]%Q [(1, 0)%Q]); [discriminate|reflexivity].
  - apply (proj1 (H eq_refl)). reflexivity.
Defined.

(** ** The buttons *)

Section ButtonFacts.

Import KMeansApp.

Variable set_limits :
  DataManager.t -> list point -> list point -> option (list point) ->
  result unit.

Variable float : string -> option Q.

Lemma with_same_data_manager (self : app) :
  with_data_manager self (data_manager self) = self.
Proof. destruct self. reflexivity. Qed.

Lemma update_display_by_limits (dm : DataManager.t) :
  DataManager.customer_data dm <> [] -> drawable dm ->
  _update_display set_limits dm =
    set_limits dm (DataManager.customer_data dm)
      (DataManager.initial_facility_locations dm)
      (DataManager.optimal_facility_locations dm).
Proof.
  intros Hc Hd. unfold _update_display.
  destruct (DataManager.customer_data dm) as [|p ps] eqn:Ec; [congruence|].
  assert (Hu : forall r : result unit,
             match
               (match r with
                | Raise e => Raise e
                | Ok _ => Ok ([] : list R)
                end)
             with
             | Raise e => Raise e
             | Ok _ => Ok tt
             end = r).
  { intros [[]|e]; reflexivity. }
  destruct Hd as [Hl|[Ho|[labels [locations [Hl [Ho Hlen]]]]]].
  - rewrite (update_plot_without_result set_limits dm p ps Ec (or_introl Hl)).
    apply Hu.
  - rewrite (update_plot_without_result set_limits dm p ps Ec (or_intror Ho)).
    apply Hu.
  - rewrite Ec in Hlen.
    destruct (update_plot_aligned set_limits dm p ps labels locations
                Ec Hl Ho Hlen) as [radii [_ E]].
    rewrite E, Ho.
    destruct (set_limits dm (p :: ps)
                (DataManager.initial_facility_locations dm) (Some locations))
      as [[]|e]; reflexivity.
Qed.

Lemma update_display_no_customers (dm : DataManager.t) :
  DataManager.customer_data dm = [] -> _update_display set_limits dm = Ok tt.
Proof.
  intros Hc. unfold _update_display, Plotter.update_plot. rewrite Hc.
  reflexivity.
Qed.

Lemma update_display_raises (dm : DataManager.t) (e : exn) :
  Plotter.update_plot set_limits dm = Raise e ->
  _update_display set_limits dm = Raise e.
Proof.
  intros E. unfold _update_display. rewrite E. reflexivity.
Qed.

(** X13.  An entry that is no number changes nothing: when the x or the y
    text of the customer entries does not convert, [_add_customer] shows the
    "Invalid Input" box and returns the window as it was, store and entry
    texts alike; and so does [_add_facility] for the facility entries. *)
Theorem invalid_entry_changes_nothing (self : KMeansApp.app) :
  (float (customer_x_entry self) = None \/
   float (customer_y_entry self) = None ->
   _add_customer set_limits float self
     = {| window_after := self; boxes := [invalid_input];
          uncaught := None |}) /\
  (float (facility_x_entry self) = None \/
   float (facility_y_entry self) = None ->
   _add_facility set_limits float self
     = {| window_after := self; boxes := [invalid_input];
          uncaught := None |}).
Proof.
  split; intros [H|H].
  - unfold _add_customer. rewrite H. reflexivity.
  - unfold _add_customer. rewrite H.
    destruct (float (customer_x_entry self)); reflexivity.
  - unfold _add_facility. rewrite H. reflexivity.
  - unfold _add_facility. rewrite H.
    destruct (float (facility_x_entry self)); reflexivity.
Qed.

Lemma redraw_in_try_window (self : app) :
  window_after (redraw_in_try set_limits self) = self.
Proof.
  unfold redraw_in_try.
  destruct (_update_display set_limits (data_manager self)) as [u|[m|m]];
    reflexivity.
Qed.

(** X14.  A customer entered with two numbers is stored and both customer
    entries are emptied, whatever the redraw that follows does.  Without a
    stored result the redraw ends in setting the axis limits: when
    matplotlib accepts them nothing is shown, and when it raises
    [ValueError] the handler meant for the entries catches it and shows the
    "Invalid Input" box, although the customer was stored.  With a stored
    result that has one label per customer, the redraw raises [IndexError],
    which that handler does not catch: the exception leaves the callback. *)
Theorem add_customer_button (self : KMeansApp.app) (x y : Q) :
  float (customer_x_entry self) = Some x ->
  float (customer_y_entry self) = Some y ->
  let dm := data_manager self in
  let dm' := DataManager.add_customer x y dm in
  let r := _add_customer set_limits float self in
  data_manager (window_after r) = dm' /\
  customer_x_entry (window_after r) = EmptyString /\
  customer_y_entry (window_after r) = EmptyString /\
  facility_x_entry (window_after r) = facility_x_entry self /\
  facility_y_entry (window_after r) = facility_y_entry self /\
  (DataManager.cluster_labels dm = None ->
   (set_limits dm' (DataManager.customer_data dm ++ [(x, y)])%list
      (DataManager.initial_facility_locations dm)
      (DataManager.optimal_facility_locations dm) = Ok tt ->
    boxes r = [] /\ uncaught r = None) /\
   (forall m,
      set_limits dm' (DataManager.customer_data dm ++ [(x, y)])%list
        (DataManager.initial_facility_locations dm)
        (DataManager.optimal_facility_locations dm) = Raise (ValueError m) ->
      boxes r = [showerror "Invalid Input"
                   "Please enter valid numbers for X and Y coordinates."] /\
      uncaught r = None)) /\
  (forall labels locations,
     DataManager.cluster_labels dm = Some labels ->
     DataManager.optimal_facility_locations dm = Some locations ->
     length labels = length (DataManager.customer_data dm) ->
     boxes r = [] /\ uncaught r = Some (IndexError "index out of bounds")).
Proof.
  intros Hx Hy. cbv zeta. unfold _add_customer. rewrite Hx, Hy.
  rewrite redraw_in_try_window. cbn [data_manager customer_x_entry
    customer_y_entry facility_x_entry facility_y_entry].
  repeat (split; [reflexivity|]). split.
  - intros Hnone. unfold redraw_in_try. cbn [data_manager].
    rewrite (update_display_by_limits
               (DataManager.add_customer x y (data_manager self))).
    + cbn [DataManager.add_customer DataManager.customer_data
           DataManager.initial_facility_locations
           DataManager.optimal_facility_locations].
      split.
      * intros Hok. rewrite Hok. split; reflexivity.
      * intros m Hm. rewrite Hm. split; reflexivity.
    + cbn. destruct (DataManager.customer_data (data_manager self));
        discriminate.
    + left. exact Hnone.
  - intros labels locations Hl Ho Hlen. unfold redraw_in_try.
    cbn [data_manager].
    rewrite (update_display_raises
               (DataManager.add_customer x y (data_manager self))
               (IndexError "index out of bounds")).
    + split; reflexivity.
    + destruct (DataManager.customer_data (data_manager self) ++ [(x, y)])%list
        as [|p ps] eqn:E.
      * destruct (DataManager.customer_data (data_manager self)); discriminate E.
      * apply (update_plot_needs_labels set_limits _ p ps labels locations).
        -- exact E.
        -- exact Hl.
        -- exact Ho.
        -- rewrite <- E, length_app. cbn. lia.
Qed.

(** X15.  A facility entered with two numbers is stored and both facility
    entries are emptied, whatever the redraw that follows does.  Without
    customers nothing is drawn and nothing is shown.  With customers, and
    no stored result or one with a label per customer, the redraw ends in
    setting the axis limits, which now include the new facility: when
    matplotlib accepts them nothing is shown, and when it raises
    [ValueError] the "Invalid Input" box is shown although the facility was
    stored. *)
Theorem add_facility_button (self : KMeansApp.app) (x y : Q) :
  float (facility_x_entry self) = Some x ->
  float (facility_y_entry self) = Some y ->
  let dm := data_manager self in
  let dm' := DataManager.add_initial_facility x y dm in
  let r := _add_facility set_limits float self in
  data_manager (window_after r) = dm' /\
  facility_x_entry (window_after r) = EmptyString /\
  facility_y_entry (window_after r) = EmptyString /\
  customer_x_entry (window_after r) = customer_x_entry self /\
  customer_y_entry (window_after r) = customer_y_entry self /\
  (DataManager.customer_data dm = [] -> boxes r = [] /\ uncaught r = None) /\
  (DataManager.customer_data dm <> [] ->
   (DataManager.cluster_labels dm = None \/
    DataManager.optimal_facility_locations dm = None \/
    exists labels locations,
      DataManager.cluster_labels dm = Some labels /\
      DataManager.optimal_facility_locations dm = Some locations /\
      length labels = length (DataManager.customer_data dm)) ->
   (set_limits dm' (DataManager.customer_data dm)
      (DataManager.initial_facility_locations dm ++ [(x, y)])%list
      (DataManager.optimal_facility_locations dm) = Ok tt ->
    boxes r = [] /\ uncaught r = None) /\
   (forall m,
      set_limits dm' (DataManager.customer_data dm)
        (DataManager.initial_facility_locations dm ++ [(x, y)])%list
        (DataManager.optimal_facility_locations dm) = Raise (ValueError m) ->
      boxes r = [showerror "Invalid Input"
                   "Please enter valid numbers for X and Y coordinates."] /\
      uncaught r = None)).
Proof.
  intros Hx Hy. cbv zeta. unfold _add_facility. rewrite Hx, Hy.
  rewrite redraw_in_try_window. cbn [data_manager customer_x_entry
    customer_y_entry facility_x_entry facility_y_entry].
  repeat (split; [reflexivity|]). split.
  - intros Hc. unfold redraw_in_try. cbn [data_manager].
    rewrite update_display_no_customers by exact Hc. split; reflexivity.
  - intros Hc Hd. unfold redraw_in_try. cbn [data_manager].
    rewrite (update_display_by_limits
               (DataManager.add_initial_facility x y (data_manager self))).
    + cbn [DataManager.add_initial_facility DataManager.customer_data
           DataManager.initial_facility_locations
           DataManager.optimal_facility_locations].
      split.
      * intros Hok. rewrite Hok. split; reflexivity.
      * intros m Hm. rewrite Hm. split; reflexivity.
    + exact Hc.
    + exact Hd.
Qed.

(** X16.  The clear buttons.  [_clear_customers] cannot fail: it stores the
    cleared data manager, shows its "Cleared" box, leaves the entry texts
    alone, and no exception leaves the callback, whatever the store held.
    [_clear_facilities] does the same when there are no customers; with
    customers its redraw ends in setting the axis limits of the remaining
    customers outside any [try], so what matplotlib raises there leaves the
    callback, after the box was shown and the store was cleared. *)
Theorem clear_buttons_outcome (self : KMeansApp.app) :
  _clear_customers set_limits self
    = {| window_after :=
           with_data_manager self
             (DataManager.clear_customers (data_manager self));
         boxes := [showinfo "Cleared" "All customer locations cleared."];
         uncaught := None |} /\
  window_after (_clear_facilities set_limits self)
    = with_data_manager self
        (DataManager.clear_facilities (data_manager self)) /\
  boxes (_clear_facilities set_limits self)
    = [showinfo "Cleared" "All facility locations cleared."] /\
  (DataManager.customer_data (data_manager self) = [] ->
   uncaught (_clear_facilities set_limits self) = None) /\
  (DataManager.customer_data (data_manager self) <> [] ->
   uncaught (_clear_facilities set_limits self)
     = match set_limits (DataManager.clear_facilities (data_manager self))
               (DataManager.customer_data (data_manager self)) [] None with
       | Ok _ => None
       | Raise e => Some e
       end).
Proof.
  unfold _clear_customers, _clear_facilities, redraw.
  cbn [with_data_manager data_manager].
  split; [|split; [|split; [|split]]].
  - rewrite update_display_no_customers by reflexivity. reflexivity.
  - destruct (_update_display set_limits _); reflexivity.
  - destruct (_update_display set_limits _); reflexivity.
  - intros Hc. rewrite update_display_no_customers by exact Hc. reflexivity.
  - intros Hc.
    rewrite (update_display_by_limits
               (DataManager.clear_facilities (data_manager self))).
    + cbn. destruct (set_limits _ _ _ _); reflexivity.
    + exact Hc.
    + left. reflexivity.
Qed.

(** X17.  The import buttons.  An import that fails leaves the window as it
    was and is followed by no redraw; the only box is the data manager's:
    none when no file was chosen, and its "Error" box for a file that cannot
    be read or lacks a column.  A successful import of at least one customer
    into a store that holds a result with one label per customer stores the
    rows and shows the "Success" box with their number, and the redraw that
    follows raises [IndexError] out of the callback. *)
Theorem import_buttons (self : KMeansApp.app) :
  (_import_customers_excel set_limits DataManager.NoFile self
     = {| window_after := self; boxes := []; uncaught := None |} /\
   _import_facilities_excel set_limits DataManager.NoFile self
     = {| window_after := self; boxes := []; uncaught := None |}) /\
  (forall msg,
     _import_customers_excel set_limits (DataManager.ReadFailure msg) self
       = {| window_after := self;
            boxes := [showerror "Error"
                        (String.append "Failed to import Excel file:"
                           (String "010"%char msg))];
            uncaught := None |} /\
     _import_facilities_excel set_limits (DataManager.ReadFailure msg) self
       = {| window_after := self;
            boxes := [showerror "Error"
                        (String.append "Failed to import Excel file:"
                           (String "010"%char msg))];
            uncaught := None |}) /\
  (_import_customers_excel set_limits DataManager.MissingColumns self
     = {| window_after := self;
          boxes := [showerror "Error"
                      "Excel file must contain 'X' and 'Y' columns"];
          uncaught := None |} /\
   _import_facilities_excel set_limits DataManager.MissingColumns self
     = {| window_after := self;
          boxes := [showerror "Error"
                      "Excel file must contain 'X' and 'Y' columns"];
          uncaught := None |}) /\
  (forall row rows labels locations,
     DataManager.cluster_labels (data_manager self) = Some labels ->
     DataManager.optimal_facility_locations (data_manager self)
       = Some locations ->
     length labels = length (DataManager.customer_data (data_manager self)) ->
     let r :=
       _import_customers_excel set_limits
         (DataManager.Rows (row :: rows)) self in
     DataManager.customer_data (data_manager (window_after r))
       = (DataManager.customer_data (data_manager self) ++ row :: rows)%list /\
     boxes r
       = [showinfo "Success"
            (String.append "Added "
               (String.append
                  (NilZero.string_of_uint (Nat.to_uint (S (length rows))))
                  " customer locations from Excel"))] /\
     uncaught r = Some (IndexError "index out of bounds")).
Proof.
  unfold _import_customers_excel, _import_facilities_excel.
  split; [|split; [|split]].
  - cbn. rewrite with_same_data_manager. split; reflexivity.
  - intros msg. cbn. rewrite with_same_data_manager. split; reflexivity.
  - cbn. rewrite with_same_data_manager. split; reflexivity.
  - intros row rows labels locations Hl Ho Hlen. cbv zeta.
    cbn [DataManager.import_customers_excel]. unfold redraw.
    cbn [data_manager with_data_manager].
    rewrite (update_display_raises _ (IndexError "index out of bounds")).
    + cbn. split; [reflexivity|]. split; reflexivity.
    + destruct (DataManager.customer_data (data_manager self)
                ++ row :: rows)%list as [|p ps] eqn:E.
      * destruct (DataManager.customer_data (data_manager self));
          discriminate E.
      * apply (update_plot_needs_labels set_limits _ p ps labels locations).
        -- reflexivity.
        -- exact Hl.
        -- exact Ho.
        -- rewrite <- E, length_app. cbn. lia.
Qed.

End ButtonFacts.

Lemma invalid_entry_changes_nothing_witness :
  let float := fun s => if String.eqb s "3" then Some 3%Q else None in
  let set_limits := fun _ _ _ _ => Ok tt in
  let self :=
    {| KMeansApp.data_manager := DataManager.__init__;
       KMeansApp.customer_x_entry := "3";
       KMeansApp.customer_y_entry := "three";
       KMeansApp.facility_x_entry := "";
       KMeansApp.facility_y_entry := "" |} in
  KMeansApp._add_customer set_limits float self
    = {| KMeansApp.window_after := self;
         KMeansApp.boxes := [KMeansApp.invalid_input];
         KMeansApp.uncaught := None |}.
Proof.
  intros float set_limits self.
  apply (proj1 (invalid_entry_changes_nothing set_limits float self)).
  right. reflexivity.
Defined.

Lemma add_customer_button_witness :
  let float := fun s => if String.eqb s "3" then Some 3%Q else None in
  let set_limits := fun _ _ _ _ => Raise (ValueError "Axis limits cannot be NaN or Inf") in
  let self :=
    {| KMeansApp.data_manager :=
         DataManager.add_customer 0 0 DataManager.__init__;
       KMeansApp.customer_x_entry := "3";
       KMeansApp.customer_y_entry := "3";
       KMeansApp.facility_x_entry := "";
       KMeansApp.facility_y_entry := "" |} in
  KMeansApp.boxes (KMeansApp._add_customer set_limits float self)
    = [KMeansApp.showerror "Invalid Input"
         "Please enter valid numbers for X and Y coordinates."] /\
  KMeansApp.uncaught (KMeansApp._add_customer set_limits float self) = None.
Proof.
  intros float set_limits self.
  destruct (add_customer_button set_limits float self 3 3 eq_refl eq_refl)
    as [_ [_ [_ [_ [_ [H _]]]]]].
  apply (proj2 (H eq_refl) "Axis limits cannot be NaN or Inf"%string).
  reflexivity.
Defined.

Lemma add_facility_button_witness :
  let float := fun s => if String.eqb s "3" then Some 3%Q else None in
  let set_limits := fun _ _ _ _ => Ok tt in
  let self :=
    {| KMeansApp.data_manager :=
         DataManager.set_optimal_facilities [(1, 0)%Q] [0; 0]%nat
           (DataManager.add_initial_facility 1 0
              (DataManager.add_customer 2 0
                 (DataManager.add_customer 0 0 DataManager.__init__)));
       KMeansApp.customer_x_entry := "";
       KMeansApp.customer_y_entry := "";
       KMeansApp.facility_x_entry := "3";
       KMeansApp.facility_y_entry := "3" |} in
  KMeansApp.boxes (KMeansApp._add_facility set_limits float self) = [] /\
  KMeansApp.uncaught (KMeansApp._add_facility set_limits float self) = None.
Proof.
  intros float set_limits self.
  destruct (add_facility_button set_limits float self 3 3 eq_refl eq_refl)
    as [_ [_ [_ [_ [_ [_ H]]]]]].
  refine (proj1 (H _ _) eq_refl).
  - discriminate.
  - right. right. exists [0; 0]%nat, [(1, 0)%Q].
    split; [reflexivity|]. split; reflexivity.
Defined.

Lemma clear_buttons_outcome_witness :
  let set_limits := fun _ _ _ _ => Raise (ValueError "Axis limits cannot be NaN or Inf") in
  let self :=
    {| KMeansApp.data_manager :=
         DataManager.add_initial_facility 1 0
           (DataManager.add_customer 0 0 DataManager.__init__);
       KMeansApp.customer_x_entry := "";
       KMeansApp.customer_y_entry := "";
       KMeansApp.facility_x_entry := "";
       KMeansApp.facility_y_entry := "" |} in
  KMeansApp.uncaught (KMeansApp._clear_facilities set_limits self)
    = Some (ValueError "Axis limits cannot be NaN or Inf").
Proof.
  intros set_limits self.
  destruct (clear_buttons_outcome set_limits self) as [_ [_ [_ [_ H]]]].
  apply H. discriminate.
Defined.

Lemma import_buttons_witness :
  let set_limits := fun _ _ _ _ => Ok tt in
  let self :=
    {| KMeansApp.data_manager :=
         DataManager.set_optimal_facilities [(1, 0)%Q] [0; 0]%nat
           (DataManager.add_customer 2 0
              (DataManager.add_customer 0 0 DataManager.__init__));
       KMeansApp.customer_x_entry := "";
       KMeansApp.customer_y_entry := "";
       KMeansApp.facility_x_entry := "";
       KMeansApp.facility_y_entry := "" |} in
  let r :=
    KMeansApp._import_customers_excel set_limits
      (DataManager.Rows [(5, 5)%Q; (6, 6)%Q]) self in
  KMeansApp.boxes r
    = [KMeansApp.showinfo "Success" "Added 2 customer locations from Excel"] /\
  KMeansApp.uncaught r = Some (IndexError "index out of bounds").
Proof.
  intros set_limits self r.
  destruct (import_buttons set_limits self) as [_ [_ [_ H]]].
  destruct (H (5, 5)%Q [(6, 6)%Q] [0; 0]%nat [(1, 0)%Q]
              eq_refl eq_refl eq_refl) as [_ [Hb Hu]].
  split; [exact Hb|exact Hu].
Defined.
